(** * Hedera Local Node: the initialization state (InitState)

    A shallow embedding of [src/state/InitState.ts] and of the port tables of
    [src/constants.ts].  The asynchronous method [onStart] runs its awaits in
    sequence, so it is embedded as one sequential computation in a state and
    exception monad over a [World]: the process environment, the file tree,
    the events delivered to the observer, the calls made to collaborators and
    the log.  A JavaScript exception (a rejected promise) is the [Throw]
    completion; the world reached when it was raised is kept. *)

From Stdlib Require Import ZArith.
From stdpp Require Import base option strings pretty list gmap.

Open Scope Z_scope.
Open Scope string_scope.
Set Warnings "-register-all".

(** ** constants.ts *)

Definition NECESSARY_PORTS : list Z := [5551; 8545; 5600; 5433; 50211; 8082].
Definition OPTIONAL_PORTS : list Z := [7546; 8080; 6379; 3000].
Definition APPLICATION_YML_RELATIVE_PATH : string :=
  "../../compose-network/mirror-node/application.yml".

(** The line feed of the template literals and the double quote of the relay
    network literal. *)
Definition LF : string := String (Ascii.ascii_of_nat 10) EmptyString.
Definition DQ : string := String (Ascii.ascii_of_nat 34) EmptyString.

(** ** Data *)

(** [Configuration] of types/NetworkConfiguration: a key and its value. *)
Record Configuration := mkConfiguration { key : string; value : string }.

Record NodeConfiguration := mkNodeConfiguration { properties : list Configuration }.

(** What [getSelectedConfigurationData] returns; the two optional members are
    [option]s, [None] standing for [undefined]. *)
Record NetworkConfiguration := mkNetworkConfiguration {
  imageTagConfiguration : list Configuration;
  envConfiguration : option (list Configuration);
  nodeConfiguration : option NodeConfiguration
}.

(** The members of [CLIOptions] that InitState reads. *)
Record CLIOptions := mkCLIOptions {
  network : string;
  workDir : string;
  host : string;
  devMode : bool;
  fullMode : bool;
  multiNode : bool;
  enableDebug : bool;
  limits : bool
}.

(** The two members of [EventType] that this state delivers. *)
Inductive EventType := Finish | UnresolvableError.

Global Instance EventType_eq_dec : EqDecision EventType.
Proof. solve_decision. Defined.

(** A value of the document that [yaml.load] builds.  The document is taken
    as a tree: the shipped application.yml has no aliases, so no two paths of
    the loaded object share a node.  A mapping keeps its keys in insertion
    order; a number keeps its literal text. *)
Inductive JsValue :=
| JUndefined
| JNull
| JBool (b : bool)
| JNumber (literal : string)
| JString (s : string)
| JArray (elements : list JsValue)
| JObject (members : list (string * JsValue)).

(** originalNodeConfiguration.json, imported by the state; its content is not
    part of the sources and is a parameter of the development. *)
Record TurboNodeProperties := mkTurboNodeProperties {
  dataPath : JsValue;
  sources : JsValue
}.

Class OriginalNodeConfiguration := mkOriginalNodeConfiguration {
  bootsrapProperties : list Configuration;
  turboNodeProperties : TurboNodeProperties;
  local : JsValue;
  multiNodeProperties : JsValue
}.

(** ** The world *)

Record FileSystem := mkFileSystem {
  files : gmap string string;
  dirs : gset string
}.

Inductive Level := LTrace | LInfo | LWarning | LError.

Record LogEntry := mkLogEntry {
  level : Level;
  message : string;
  component : string
}.

Inductive Call :=
| GetSelectedConfigurationData (net : string)
| IsCorrectDockerComposeVersion (result : bool)
| CheckDocker (result : bool)
| CheckDockerResources (multi : bool) (result : bool)
| IsPortInUse (ports : list Z)
| CreateEphemeralDirectories (root : string)
| CopyPaths (mapping : list (string * string))
| ReadFileSync (path : string)
| WriteFileSync (path : string) (data : string).

Inductive JsError :=
| TypeError (what : string)
| Unresolvable (net : string)
| PortConflict (port : Z)
| FileSystemError (path : string)
| YAMLException.

Record World := mkWorld {
  env : gmap string string;
  fs : FileSystem;
  events : list EventType;
  calls : list Call;
  log : list LogEntry
}.

Definition initial (e : gmap string string) (f : FileSystem) : World :=
  mkWorld e f [] [] [].

Definition with_env (g : gmap string string -> gmap string string) (w : World) : World :=
  mkWorld (g (env w)) (fs w) (events w) (calls w) (log w).
Definition with_fs (f : FileSystem) (w : World) : World :=
  mkWorld (env w) f (events w) (calls w) (log w).
Definition with_event (ev : EventType) (w : World) : World :=
  mkWorld (env w) (fs w) (events w ++ [ev]) (calls w) (log w).
Definition with_call (c : Call) (w : World) : World :=
  mkWorld (env w) (fs w) (events w) (calls w ++ [c]) (log w).
Definition with_log (l : LogEntry) (w : World) : World :=
  mkWorld (env w) (fs w) (events w) (calls w) (log w ++ [l]).

(** ** The monad *)

Inductive Completion (A : Type) :=
| Normal (a : A)
| Throw (e : JsError).
Arguments Normal {A} a.
Arguments Throw {A} e.

Definition M (A : Type) : Type := World -> Completion A * World.

Definition ret {A} (a : A) : M A := fun w => (Normal a, w).
Definition throw {A} (e : JsError) : M A := fun w => (Throw e, w).
Definition bind {A B} (m : M A) (k : A -> M B) : M B :=
  fun w => match m w with
           | (Normal a, w') => k a w'
           | (Throw e, w') => (Throw e, w')
           end.

Notation "'let*' x ':=' m 'in' k" := (bind m (fun x => k))
  (at level 10, x name, m at level 200, k at level 200).
Notation "m ';;;' k" := (bind m (fun _ => k))
  (at level 100, k at level 200, right associativity).

Definition modify (g : World -> World) : M unit := fun w => (Normal tt, g w).

(** [Array.prototype.forEach] with an effectful callback. *)
Fixpoint forEach {A} (l : list A) (body : A -> M unit) : M unit :=
  match l with
  | [] => ret tt
  | x :: l' => body x ;;; forEach l' body
  end.

(** ** JavaScript objects *)

(** Own properties in insertion order: reading finds the key, writing
    replaces the value in place or appends a new key at the end. *)
Fixpoint prop_get {V} (k : string) (ms : list (string * V)) : option V :=
  match ms with
  | [] => None
  | (k', v) :: ms' => if decide (k = k') then Some v else prop_get k ms'
  end.

Fixpoint prop_set {V} (k : string) (x : V) (ms : list (string * V)) : list (string * V) :=
  match ms with
  | [] => [(k, x)]
  | (k', v) :: ms' =>
      if decide (k = k') then (k, x) :: ms' else (k', v) :: prop_set k x ms'
  end.

(** [v.k] for a property name [k] that is neither an array index nor a
    member of a prototype (the names this state uses are hedera, mirror,
    importer, downloader and monitor): a TypeError on undefined and null,
    undefined on a primitive or an array. *)
Definition getProp (v : JsValue) (k : string) : Completion JsValue :=
  match v with
  | JUndefined | JNull => Throw (TypeError k)
  | JObject ms => Normal (default JUndefined (prop_get k ms))
  | _ => Normal JUndefined
  end.

(** [v.k = x] in strict mode, for such a name: a TypeError on undefined, null
    and on a primitive.  On an array the assignment creates an own property
    next to the elements; nothing reads it back and [yaml.dump] writes the
    elements only, so the array is returned as it is. *)
Definition setProp (v : JsValue) (k : string) (x : JsValue) : Completion JsValue :=
  match v with
  | JObject ms => Normal (JObject (prop_set k x ms))
  | JArray xs => Normal (JArray xs)
  | _ => Throw (TypeError k)
  end.

(** [v.k1.k2. ... .kn]. *)
Fixpoint get_path (path : list string) (v : JsValue) : Completion JsValue :=
  match path with
  | [] => Normal v
  | k :: rest =>
      match getProp v k with
      | Normal child => get_path rest child
      | Throw e => Throw e
      end
  end.

(** [v.k1.k2. ... .kn = x]: the assignment mutates the innermost object in
    place; in the tree the change is carried back up to the root. *)
Fixpoint assign (path : list string) (x : JsValue) (v : JsValue) : Completion JsValue :=
  match path with
  | [] => Normal x
  | k :: rest =>
      match rest with
      | [] => setProp v k x
      | _ :: _ =>
          match getProp v k with
          | Normal child =>
              match assign rest x child with
              | Normal child' =>
                  Normal (match v with
                          | JObject ms => JObject (prop_set k child' ms)
                          | _ => v
                          end)
              | Throw e => Throw e
              end
          | Throw e => Throw e
          end
      end
  end.

(** ** Collaborators *)

(** Node's [path.join] and [__dirname], js-yaml's [load] and [dump] (with its
    lineWidth option) and the two operations of utils/FileSystemUtils are
    outside the sources.  For [load] and [dump], [None] is a raised
    exception.  An operation of FileSystemUtils gives its completion and
    the file tree it leaves: when it raises, the tree is the one it has
    reached by then, with whatever part of its work it has done (a copy
    goes path by path, and nothing undoes the paths already copied). *)
Class Platform := mkPlatform {
  join : list string -> string;
  __dirname : string;
  yaml_load : string -> option JsValue;
  yaml_dump : Z -> JsValue -> option string;
  createEphemeralDirectories : string -> FileSystem -> Completion unit * FileSystem;
  copyPaths : list (string * string) -> FileSystem -> Completion unit * FileSystem
}.

(** What the machine answers: the three probes of the Docker service, the
    ports that are taken and the paths that can be written. *)
Class Host := mkHost {
  composeVersionCorrect : bool;
  dockerStarted : bool;
  dockerResources : bool -> bool;
  portsInUse : list Z;
  writable : string -> bool
}.

(** The configuration catalog behind [ConfigurationData]: its entries by
    network identifier, and what the lookup does with an identifier that
    has no entry: it fails ([None]) or it answers with an entry of its
    choice all the same. *)
Class ConfigurationData := mkConfigurationData {
  networks : list (string * NetworkConfiguration);
  otherwise : option NetworkConfiguration
}.

(** The fields of the state: its options and whether [subscribe] has
    installed an observer. *)
Record InitState := mkInitState {
  cliOptions : CLIOptions;
  observer : bool
}.

Definition stateName : string := "InitState".

Definition js_string_of_bool (b : bool) : string := if b then "true" else "false".

(** The value the multi-node branch gives to RELAY_HEDERA_NETWORK: the JSON
    object literal of the source, spelled member by member. *)
Definition relayNetworkMembers : list (string * string) :=
  [("network-node:50211", "0.0.3"); ("network-node-1:50211", "0.0.4");
   ("network-node-2:50211", "0.0.5"); ("network-node-3:50211", "0.0.6")].

Definition json_member (m : string * string) : string :=
  DQ +:+ m.1 +:+ DQ +:+ ":" +:+ DQ +:+ m.2 +:+ DQ.

Fixpoint json_members (ms : list (string * string)) : string :=
  match ms with
  | [] => EmptyString
  | [m] => json_member m
  | m :: ms' => json_member m +:+ "," +:+ json_members ms'
  end.

Definition RELAY_HEDERA_NETWORK_VALUE : string :=
  "{" +:+ json_members relayNetworkMembers +:+ "}".

Section InitState.
Context {P : Platform} {H : Host}
        {originalNodeConfiguration : OriginalNodeConfiguration}
        {catalog : ConfigurationData}.

(** *** Primitive effects *)

Definition logger (lv : Level) (msg : string) (who : string) : M unit :=
  modify (with_log (mkLogEntry lv msg who)).

(** [process.env[k] = v], as the insertion of the variable into the map.
    That is what the assignment does for the names and values this state
    meets in practice: a name that is not empty and has no equals sign,
    and no NUL in the name or in the value.  Outside of these, Node drops
    the assignment (empty name, equals sign) or takes the name or the
    value up to its first NUL; the map does not follow it there. *)
Definition setenv (k v : string) : M unit := modify (with_env (insert k v)).

(** [this.observer!.update(ev)]: a TypeError when nobody has subscribed. *)
Definition update (this : InitState) (ev : EventType) : M unit :=
  if observer this then modify (with_event ev) else throw (TypeError "update").

Definition readFileSync (path : string) : M string :=
  modify (with_call (ReadFileSync path)) ;;;
  fun w => match files (fs w) !! path with
           | Some content => (Normal content, w)
           | None => (Throw (FileSystemError path), w)
           end.

(** [writeFileSync(path, data)] with the default flag 'w': the file is
    created or truncated and holds [data] afterwards. *)
Definition writeFileSync (path data : string) : M unit :=
  modify (with_call (WriteFileSync path data)) ;;;
  if writable path
  then modify (fun w => with_fs (mkFileSystem (<[path := data]> (files (fs w))) (dirs (fs w))) w)
  else throw (FileSystemError path).

Definition lift {A} (c : Completion A) : M A := fun w => (c, w).

(** An operation of FileSystemUtils: the call is recorded, then the file
    tree is the one the operation leaves, whether it returns or raises. *)
Definition attempt (op : FileSystem -> Completion unit * FileSystem) : M unit :=
  fun w => ((op (fs w)).1, with_fs (op (fs w)).2 w).

Definition fsutil (c : Call) (op : FileSystem -> Completion unit * FileSystem) : M unit :=
  modify (with_call c) ;;; attempt op.

Definition FileSystemUtils_createEphemeralDirectories (root : string) : M unit :=
  fsutil (CreateEphemeralDirectories root) (createEphemeralDirectories root).

Definition FileSystemUtils_copyPaths (mapping : list (string * string)) : M unit :=
  fsutil (CopyPaths mapping) (copyPaths mapping).

(** *** The Docker service *)

Definition isCorrectDockerComposeVersion : M bool :=
  modify (with_call (IsCorrectDockerComposeVersion composeVersionCorrect)) ;;;
  ret composeVersionCorrect.

Definition checkDocker : M bool :=
  modify (with_call (CheckDocker dockerStarted)) ;;;
  ret dockerStarted.

Definition checkDockerResources (multi : bool) : M bool :=
  modify (with_call (CheckDockerResources multi (dockerResources multi))) ;;;
  ret (dockerResources multi).

Definition busy (port : Z) : bool := bool_decide (port ∈ portsInUse).
Definition necessary (port : Z) : bool := bool_decide (port ∈ NECESSARY_PORTS).
Definition optional (port : Z) : bool := bool_decide (port ∈ OPTIONAL_PORTS).

Definition portAdvisory (port : Z) : LogEntry :=
  mkLogEntry LInfo ("Port " +:+ pretty port +:+ " is in use.") "DockerService".

(** Modelled from the spec: [DockerService.isPortInUse] is not among the
    sources.  The spec has "necessary port in use: fatal; optional port in
    use: advisory only, logged, run continues": every taken optional port
    is logged, and a taken necessary port ends the call with an exception,
    the only way the call can be fatal to a caller that, like [onStart],
    ignores what it returns. *)
Definition isPortInUse (ports : list Z) : M unit :=
  modify (with_call (IsPortInUse ports)) ;;;
  forEach ports (fun port =>
    if busy port && optional port
    then modify (with_log (portAdvisory port))
    else ret tt) ;;;
  match filter (fun port => busy port && necessary port = true) ports with
  | port :: _ => throw (PortConflict port)
  | [] => ret tt
  end.

(** Modelled from the spec: the table behind
    [ConfigurationData.getSelectedConfigurationData], which is not among
    the sources: a "static, read-only table mapping a network identifier to
    its environment-variable set, node-property overrides, and image-tag
    set".  An identifier that the table does not have is unknown; what the
    catalog answers then is [otherwise]. *)
Definition entry_for (net : string) : option NetworkConfiguration :=
  match prop_get net networks with
  | Some configurationData => Some configurationData
  | None => otherwise
  end.

(** Modelled from the spec: [ConfigurationData.getSelectedConfigurationData]
    is not among the sources.  The lookup "must fail with UnresolvableError
    semantics upstream" when the network is unknown.  It is a method of an
    object made with no argument and is given the identifier only: it has
    no observer to deliver an event to, and its failure is the exception
    [Unresolvable], raised to its caller, which is to treat it as fatal.  A
    catalog that answers an unknown identifier with an entry instead of
    failing returns that entry. *)
Definition getSelectedConfigurationData (net : string) : M NetworkConfiguration :=
  modify (with_call (GetSelectedConfigurationData net)) ;;;
  match entry_for net with
  | Some configurationData => ret configurationData
  | None => throw (Unresolvable net)
  end.

(** *** InitState *)

Definition constructor (argv : CLIOptions) : M InitState :=
  logger LTrace "Initialization State Initialized!" stateName ;;;
  ret (mkInitState argv false).

Definition subscribe (this : InitState) : InitState :=
  mkInitState (cliOptions this) true.

(** The object literal [configFiles]: three computed keys, written in
    order; a key that repeats keeps its place and takes the later value. *)
Definition configFiles (this : InitState) : list (string * string) :=
  let workDir := workDir (cliOptions this) in
  let configDirSource :=
    join [__dirname; "../../compose-network/network-node/data/config/"] in
  let configPathMirrorNodeSource :=
    join [__dirname; APPLICATION_YML_RELATIVE_PATH] in
  let recordParserSource :=
    join [__dirname; "../../src/services/record-parser"] in
  prop_set recordParserSource (workDir +:+ "/services/record-parser")
    (prop_set configPathMirrorNodeSource
       (workDir +:+ "/compose-network/mirror-node/application.yml")
       (prop_set configDirSource
          (workDir +:+ "/compose-network/network-node/data/config") [])).

Definition prepareWorkDirectory (this : InitState) : M unit :=
  logger LInfo ("Local Node Working directory set to " +:+ workDir (cliOptions this))
    stateName ;;;
  FileSystemUtils_createEphemeralDirectories (workDir (cliOptions this)) ;;;
  FileSystemUtils_copyPaths (configFiles this).

Definition exportVariable (variable : Configuration) : M unit :=
  setenv (key variable) (value variable) ;;;
  logger LTrace ("Environment variable " +:+ key variable +:+ " will be set to "
                 +:+ value variable +:+ ".") stateName.

Definition configureEnvVariables (this : InitState)
    (imageTagConfiguration : list Configuration)
    (envConfiguration : option (list Configuration)) : M unit :=
  forEach imageTagConfiguration exportVariable ;;;
  match envConfiguration with
  | None => logger LTrace "No new environment variables were configured." stateName
  | Some envConfiguration =>
      forEach envConfiguration exportVariable ;;;
      let relayLimitsDisabled := negb (limits (cliOptions this)) in
      (if relayLimitsDisabled
       then setenv "RELAY_HBAR_RATE_LIMIT_TINYBAR" "0" ;;;
            setenv "RELAY_HBAR_RATE_LIMIT_DURATION" "0" ;;;
            setenv "RELAY_RATE_LIMIT_DISABLED" (js_string_of_bool relayLimitsDisabled) ;;;
            logger LInfo "Hedera JSON-RPC Relay rate limits were disabled." stateName
       else ret tt) ;;;
      logger LInfo "Needed environment variables were set for this configuration." stateName
  end.

Definition propertyLine (property : Configuration) : string :=
  key property +:+ "=" +:+ value property +:+ LF.

(** The second loop of [configureNodeProperties]: each property extends
    [newProperties] and is traced. *)
Fixpoint appendProperties (newProperties : string) (l : list Configuration) : M string :=
  match l with
  | [] => ret newProperties
  | property :: l' =>
      logger LTrace ("Bootstrap property " +:+ key property +:+ " will be set to "
                     +:+ value property +:+ ".") stateName ;;;
      appendProperties (newProperties +:+ propertyLine property) l'
  end.

Definition configureNodeProperties (this : InitState)
    (nodeConfiguration : option (list Configuration)) : M unit :=
  let propertiesFilePath :=
    join [workDir (cliOptions this);
          "compose-network/network-node/data/config/bootstrap.properties"] in
  let newProperties :=
    foldl (fun acc property => acc +:+ propertyLine property) EmptyString
          bootsrapProperties in
  match nodeConfiguration with
  | None => logger LTrace "No additional node configuration needed." stateName
  | Some nodeConfiguration =>
      let* newProperties := appendProperties newProperties nodeConfiguration in
      writeFileSync propertiesFilePath newProperties ;;;
      logger LInfo "Needed bootsrap properties were set for this configuration." stateName
  end.

Definition importer_dataPath : list string := ["hedera"; "mirror"; "importer"; "dataPath"].
Definition downloader_sources : list string :=
  ["hedera"; "mirror"; "importer"; "downloader"; "sources"].
Definition downloader_local : list string :=
  ["hedera"; "mirror"; "importer"; "downloader"; "local"].
Definition monitor_nodes : list string := ["hedera"; "mirror"; "monitor"; "nodes"].

Definition configureMirrorNodeProperties (this : InitState) : M unit :=
  logger LTrace
    "Configuring required mirror node properties, depending on selected configuration..."
    stateName ;;;
  let turboMode := negb (fullMode (cliOptions this)) in
  let debugMode := enableDebug (cliOptions this) in
  let multiNode := multiNode (cliOptions this) in
  let propertiesFilePath :=
    join [workDir (cliOptions this); "compose-network/mirror-node/application.yml"] in
  let* content := readFileSync propertiesFilePath in
  let* application :=
    match yaml_load content with
    | Some application => ret application
    | None => throw YAMLException
    end in
  let* application :=
    if turboMode
    then let* application :=
             lift (assign importer_dataPath (dataPath turboNodeProperties) application) in
         lift (assign downloader_sources (sources turboNodeProperties) application)
    else ret application in
  let* application :=
    if debugMode
    then lift (assign downloader_local local application)
    else ret application in
  let* application :=
    if multiNode
    then let* application :=
           lift (assign monitor_nodes multiNodeProperties application) in
         setenv "RELAY_HEDERA_NETWORK" RELAY_HEDERA_NETWORK_VALUE ;;;
         ret application
    else ret application in
  let* text :=
    match yaml_dump 256 application with
    | Some text => ret text
    | None => throw YAMLException
    end in
  writeFileSync propertiesFilePath text ;;;
  logger LInfo "Needed mirror node properties were set for this configuration." stateName.

Definition workDirConfiguration (this : InitState) : list Configuration :=
  let workDir := workDir (cliOptions this) in
  [ mkConfiguration "NETWORK_NODE_LOGS_ROOT_PATH" (join [workDir; "network-logs"; "node"]);
    mkConfiguration "APPLICATION_CONFIG_PATH"
      (join [workDir; "compose-network"; "network-node"; "data"; "config"]);
    mkConfiguration "MIRROR_NODE_CONFIG_PATH" workDir;
    mkConfiguration "RECORD_PARSER_ROOT_PATH" (join [workDir; "services"; "record-parser"]) ].

Definition settingMessage (o : CLIOptions) : string :=
  "Setting configuration for " +:+ network o +:+ " network with latest images on host "
  +:+ host o +:+ " with dev mode turned " +:+ (if devMode o then "on" else "off")
  +:+ " using " +:+ (if fullMode o then "full" else "turbo") +:+ " mode in "
  +:+ (if multiNode o then "multi" else "single") +:+ " node configuration...".

(** [configurationData.envConfiguration] is reassigned to the catalog's
    list (or the empty list) followed by the work-directory entries; the
    list handed to [configureEnvVariables] is that value, never undefined. *)
Definition onStart (this : InitState) : M unit :=
  logger LTrace "Initialization State Starting..." stateName ;;;
  let* configurationData := getSelectedConfigurationData (network (cliOptions this)) in
  logger LInfo "Making sure that Docker is started and it's correct version..." stateName ;;;
  let* isCorrectDockerComposeVersion := isCorrectDockerComposeVersion in
  let* isDockerStarted := checkDocker in
  let* dockerHasEnoughResources := checkDockerResources (multiNode (cliOptions this)) in
  if negb (isCorrectDockerComposeVersion && isDockerStarted && dockerHasEnoughResources)
  then update this UnresolvableError
  else
    isPortInUse (NECESSARY_PORTS ++ OPTIONAL_PORTS)%list ;;;
    logger LInfo (settingMessage (cliOptions this)) stateName ;;;
    prepareWorkDirectory this ;;;
    let envConfiguration :=
      (default [] (envConfiguration configurationData) ++ workDirConfiguration this)%list in
    configureEnvVariables this (imageTagConfiguration configurationData)
      (Some envConfiguration) ;;;
    configureNodeProperties this (properties <$> nodeConfiguration configurationData) ;;;
    configureMirrorNodeProperties this ;;;
    update this Finish.

(** *** Vocabulary of the statements

    The worlds a run goes through, the documents the blocks produce and
    the texts that are written, named for the theorems below. *)

(** The world once the catalog has been asked, and once the three probes
    have answered. *)
Definition asked (this : InitState) (w : World) : World :=
  with_call (GetSelectedConfigurationData (network (cliOptions this)))
    (with_log (mkLogEntry LTrace "Initialization State Starting..." stateName) w).

Definition probed (this : InitState) (w : World) : World :=
  let multi := multiNode (cliOptions this) in
  with_call (CheckDockerResources multi (dockerResources multi))
    (with_call (CheckDocker dockerStarted)
       (with_call (IsCorrectDockerComposeVersion composeVersionCorrect)
          (with_log
             (mkLogEntry LInfo
                "Making sure that Docker is started and it's correct version..." stateName)
             (asked this w)))).

Definition ready (this : InitState) : bool :=
  composeVersionCorrect && dockerStarted
  && dockerResources (multiNode (cliOptions this)).

(** The steps of [onStart] that follow the readiness test. *)
Definition materialize (this : InitState) (configurationData : NetworkConfiguration) : M unit :=
  isPortInUse (NECESSARY_PORTS ++ OPTIONAL_PORTS)%list ;;;
  logger LInfo (settingMessage (cliOptions this)) stateName ;;;
  prepareWorkDirectory this ;;;
  configureEnvVariables this (imageTagConfiguration configurationData)
    (Some (default [] (envConfiguration configurationData)
           ++ workDirConfiguration this)%list) ;;;
  configureNodeProperties this
    (properties <$> nodeConfiguration configurationData) ;;;
  configureMirrorNodeProperties this ;;;
  update this Finish.

Definition advise (w : World) (port : Z) : World :=
  if busy port && optional port then with_log (portAdvisory port) w else w.

(** The environment after a list of variables has been exported into it. *)
Definition exported (l : list Configuration) (e : gmap string string) : gmap string string :=
  foldl (fun e variable => <[key variable := value variable]> e) e l.

Definition exportStep (w : World) (variable : Configuration) : World :=
  with_log
    (mkLogEntry LTrace ("Environment variable " +:+ key variable +:+ " will be set to "
                        +:+ value variable +:+ ".") stateName)
    (with_env (insert (key variable) (value variable)) w).

(** The three rate-limit variables, forced when limits are off. *)
Definition rateLimited (this : InitState) (e : gmap string string) : gmap string string :=
  if limits (cliOptions this) then e
  else <["RELAY_RATE_LIMIT_DISABLED" := "true"]>
         (<["RELAY_HBAR_RATE_LIMIT_DURATION" := "0"]>
            (<["RELAY_HBAR_RATE_LIMIT_TINYBAR" := "0"]> e)).

Definition andThen {A B} (c : Completion A) (k : A -> Completion B) : Completion B :=
  match c with
  | Normal a => k a
  | Throw e => Throw e
  end.

(** What the three guarded blocks of [configureMirrorNodeProperties] make
    of the loaded document, one after the other. *)
Definition turboBlock (this : InitState) (application : JsValue) : Completion JsValue :=
  if negb (fullMode (cliOptions this))
  then andThen
         (assign importer_dataPath (dataPath turboNodeProperties) application)
         (assign downloader_sources (sources turboNodeProperties))
  else Normal application.

Definition debugBlock (this : InitState) (application : JsValue) : Completion JsValue :=
  if enableDebug (cliOptions this)
  then assign downloader_local local application
  else Normal application.

Definition multiBlock (this : InitState) (application : JsValue) : Completion JsValue :=
  if multiNode (cliOptions this)
  then assign monitor_nodes multiNodeProperties application
  else Normal application.

Definition mutated (this : InitState) (application : JsValue) : Completion JsValue :=
  andThen (turboBlock this application)
    (fun application => andThen (debugBlock this application) (multiBlock this)).

Definition applicationPath (this : InitState) : string :=
  join [workDir (cliOptions this); "compose-network/mirror-node/application.yml"].

Definition written (path data : string) (f : FileSystem) : FileSystem :=
  mkFileSystem (<[path := data]> (files f)) (dirs f).

Definition relayed (this : InitState) (w : World) : World :=
  if multiNode (cliOptions this)
  then with_env (insert "RELAY_HEDERA_NETWORK" RELAY_HEDERA_NETWORK_VALUE) w
  else w.

(** Two paths diverge when they differ at a position both have: neither
    leads to the other. *)
Fixpoint diverge (p q : list string) : bool :=
  match p, q with
  | k :: p', k' :: q' => if decide (k = k') then diverge p' q' else true
  | _, _ => false
  end.

Definition is_mapping_at (path : list string) (v : JsValue) : Prop :=
  exists ms, get_path path v = Normal (JObject ms).

Definition importer : list string := ["hedera"; "mirror"; "importer"].
Definition downloader : list string := ["hedera"; "mirror"; "importer"; "downloader"].
Definition monitor : list string := ["hedera"; "mirror"; "monitor"].

(** The paths that the enabled blocks assign. *)
Definition targets (this : InitState) : list (list string) :=
  ((if negb (fullMode (cliOptions this))
    then [importer_dataPath; downloader_sources] else [])
   ++ (if enableDebug (cliOptions this) then [downloader_local] else [])
   ++ (if multiNode (cliOptions this) then [monitor_nodes] else []))%list.

(** The holder of every path that an enabled block assigns is a mapping. *)
Definition well_shaped (this : InitState) (application : JsValue) : Prop :=
  (fullMode (cliOptions this) = false ->
     is_mapping_at importer application /\ is_mapping_at downloader application)
  /\ (enableDebug (cliOptions this) = true -> is_mapping_at downloader application)
  /\ (multiNode (cliOptions this) = true -> is_mapping_at monitor application).

Definition bootstrapPath (this : InitState) : string :=
  join [workDir (cliOptions this);
        "compose-network/network-node/data/config/bootstrap.properties"].

(** The lines of a list of properties, one after the other. *)
Fixpoint propertyLines (l : list Configuration) : string :=
  match l with
  | [] => EmptyString
  | property :: l' => propertyLine property +:+ propertyLines l'
  end.

Definition traceProperty (w : World) (property : Configuration) : World :=
  with_log
    (mkLogEntry LTrace ("Bootstrap property " +:+ key property +:+ " will be set to "
                        +:+ value property +:+ ".") stateName) w.

(** The text that [configureNodeProperties] writes. *)
Definition bootstrapText (overrides : list Configuration) : string :=
  propertyLines (bootsrapProperties ++ overrides).

(** The file tree and the environment that a run which goes through
    leaves behind. *)
Definition bootstrapped (this : InitState) (configurationData : NetworkConfiguration)
    (f : FileSystem) : FileSystem :=
  match nodeConfiguration configurationData with
  | Some node => written (bootstrapPath this) (bootstrapText (properties node)) f
  | None => f
  end.

Definition bootstrapWrites (this : InitState) (configurationData : NetworkConfiguration)
    : list Call :=
  match nodeConfiguration configurationData with
  | Some node => [WriteFileSync (bootstrapPath this) (bootstrapText (properties node))]
  | None => []
  end.

Definition configured (this : InitState) (configurationData : NetworkConfiguration)
    (e : gmap string string) : gmap string string :=
  rateLimited this
    (exported (default [] (envConfiguration configurationData) ++ workDirConfiguration this)
       (exported (imageTagConfiguration configurationData) e)).

Definition relayedEnv (this : InitState) (e : gmap string string) : gmap string string :=
  if multiNode (cliOptions this)
  then <["RELAY_HEDERA_NETWORK" := RELAY_HEDERA_NETWORK_VALUE]> e
  else e.

(** The three rate-limit variables hold their disabling values. *)
Definition rateLimitsDisabled (e : gmap string string) : Prop :=
  e !! "RELAY_HBAR_RATE_LIMIT_TINYBAR" = Some "0"
  /\ e !! "RELAY_HBAR_RATE_LIMIT_DURATION" = Some "0"
  /\ e !! "RELAY_RATE_LIMIT_DISABLED" = Some "true".

(** *** Further vocabulary *)

(** What a computation that ends with [update this ev] does to the events:
    it returns after delivering [ev], last, to a subscribed observer, or it
    throws and has delivered nothing. *)
Definition delivers (this : InitState) (ev : EventType) (m : M unit) : Prop :=
  forall w out w',
    m w = (out, w') ->
    (out = Normal tt /\ observer this = true /\ events w' = (events w ++ [ev])%list)
    \/ (exists err, out = Throw err /\ events w' = events w).

(** Two continuations of which the first returns exactly when the second
    throws a TypeError one event earlier. *)
Definition one_event_apart (r1 r2 : Completion unit * World) : Prop :=
  forall w', r1 = (Normal tt, w') ->
             exists w'', r2 = (Throw (TypeError "update"), w'')
                         /\ w' = with_event Finish w''.

(** The value that a list of exported variables leaves for a key: the one
    of the last entry with that key. *)
Fixpoint last_value (k : string) (l : list Configuration) : option string :=
  match l with
  | [] => None
  | variable :: l' =>
      match last_value k l' with
      | Some x => Some x
      | None => if decide (key variable = k) then Some (value variable) else None
      end
  end.

Definition rateLimitKeys : list string :=
  ["RELAY_HBAR_RATE_LIMIT_TINYBAR"; "RELAY_HBAR_RATE_LIMIT_DURATION";
   "RELAY_RATE_LIMIT_DISABLED"].

Fixpoint contains (c : Ascii.ascii) (s : string) : bool :=
  match s with
  | EmptyString => false
  | String c' s' => if decide (c = c') then true else contains c s'
  end.

(** A property whose line can be read back: no equals sign or line feed in
    the key, no line feed in the value. *)
Definition clean (property : Configuration) : Prop :=
  contains (Ascii.ascii_of_nat 61) (key property) = false
  /\ contains (Ascii.ascii_of_nat 10) (key property) = false
  /\ contains (Ascii.ascii_of_nat 10) (value property) = false.

(** A name that [process.env] keeps as it is given: it is not empty and has
    neither an equals sign nor a NUL; and a variable with such a name and
    a value without a NUL.  Node hands both to the C environment as
    strings that end at a NUL, and an assignment to an empty name or to a
    name with an equals sign is dropped; on these names and values
    [process.env[k] = v] is the plain insertion of [setenv]. *)
Definition properName (k : string) : Prop :=
  k <> EmptyString
  /\ contains (Ascii.ascii_of_nat 61) k = false
  /\ contains (Ascii.ascii_of_nat 0) k = false.

Definition portable (variable : Configuration) : Prop :=
  properName (key variable) /\ contains (Ascii.ascii_of_nat 0) (value variable) = false.

(** The values a property can be assigned on: objects and arrays. *)
Definition assignable (v : JsValue) : bool :=
  match v with
  | JObject _ | JArray _ => true
  | _ => false
  end.

(** The assignments of the enabled blocks, in the order of the source. *)
Definition assignments (this : InitState) : list (list string * JsValue) :=
  ((if negb (fullMode (cliOptions this))
    then [(importer_dataPath, dataPath turboNodeProperties);
          (downloader_sources, sources turboNodeProperties)]
    else [])
   ++ (if enableDebug (cliOptions this) then [(downloader_local, local)] else [])
   ++ (if multiNode (cliOptions this) then [(monitor_nodes, multiNodeProperties)] else []))%list.

Fixpoint assign_all (l : list (list string * JsValue)) (v : JsValue) : Completion JsValue :=
  match l with
  | [] => Normal v
  | (path, x) :: l' => andThen (assign path x v) (assign_all l')
  end.

(** Every path of the list diverges from every later one. *)
Fixpoint independent (l : list (list string * JsValue)) : bool :=
  match l with
  | [] => true
  | (path, _) :: l' => forallb (fun entry => diverge path entry.1) l' && independent l'
  end.

End InitState.

(** ** Relations between the worlds of a run *)

(** [preserves R m]: every run of [m], whether it returns or throws, relates
    the world it starts in to the world it ends in. *)
Definition preserves {A} (R : relation World) (m : M A) : Prop :=
  forall w out w', m w = (out, w') -> R w w'.

(** A component of the world that a run leaves as it was. *)
Definition unchanged {X} (proj : World -> X) : relation World :=
  fun w w' => proj w' = proj w.

(** A list component that a run only extends, with entries that are [good]. *)
Definition extended {X} (proj : World -> list X) (good : X -> Prop) : relation World :=
  fun w w' => exists l, proj w' = (proj w ++ l)%list /\ Forall good l.

(** A readiness check that has answered no. *)
Definition failedCheck (c : Call) : bool :=
  match c with
  | IsCorrectDockerComposeVersion false
  | CheckDocker false
  | CheckDockerResources _ false => true
  | _ => false
  end.

(** ** An instance to run the state on

    POSIX [path.join], a flow-style printer in place of js-yaml, a copy by
    path prefix in place of FileSystemUtils, and a small catalog. *)

Module Posix.
Definition SLASH : Ascii.ascii := Ascii.ascii_of_nat 47.

Fixpoint split (s cur : string) : list string :=
  match s with
  | EmptyString => [cur]
  | String c s' =>
      if decide (c = SLASH) then cur :: split s' EmptyString
      else split s' (cur +:+ String c EmptyString)
  end.

(** One segment against the segments kept so far, innermost first. *)
Definition resolve (allowAboveRoot : bool) (stack : list string) (seg : string) : list string :=
  if decide (seg = EmptyString) then stack
  else if decide (seg = ".") then stack
  else if decide (seg = "..") then
    match stack with
    | top :: below => if decide (top = "..") then seg :: stack else below
    | [] => if allowAboveRoot then [seg] else []
    end
  else seg :: stack.

Fixpoint unsplit (segs : list string) : string :=
  match segs with
  | [] => EmptyString
  | [s] => s
  | s :: rest => s +:+ "/" +:+ unsplit rest
  end.

Definition ends_with_slash (s : string) : bool :=
  match rev (String.list_ascii_of_string s) with
  | c :: _ => bool_decide (c = SLASH)
  | [] => false
  end.

Definition normalize (path : string) : string :=
  match path with
  | EmptyString => "."
  | String c _ =>
      let isAbsolute := bool_decide (c = SLASH) in
      let trailing := ends_with_slash path in
      let body :=
        unsplit (rev (foldl (resolve (negb isAbsolute)) [] (split path EmptyString))) in
      match body with
      | EmptyString => if isAbsolute then "/" else if trailing then "./" else "."
      | _ => (if isAbsolute then "/" else EmptyString) +:+ body
             +:+ (if trailing then "/" else EmptyString)
      end
  end.

Definition join (parts : list string) : string :=
  match filter (fun p => p <> EmptyString) parts with
  | [] => "."
  | ps => normalize (unsplit ps)
  end.
End Posix.

Module Example.
Fixpoint render (v : JsValue) : string :=
  match v with
  | JUndefined => "undefined"
  | JNull => "null"
  | JBool b => js_string_of_bool b
  | JNumber n => n
  | JString s => "'" +:+ s +:+ "'"
  | JArray xs =>
      "[" +:+ (fix items (l : list JsValue) : string :=
                 match l with
                 | [] => EmptyString
                 | [x] => render x
                 | x :: l' => render x +:+ ", " +:+ items l'
                 end) xs +:+ "]"
  | JObject ms =>
      "{" +:+ (fix members (l : list (string * JsValue)) : string :=
                 match l with
                 | [] => EmptyString
                 | [(k, x)] => k +:+ ": " +:+ render x
                 | (k, x) :: l' => k +:+ ": " +:+ render x +:+ ", " +:+ members l'
                 end) ms +:+ "}"
  end.

(** The application document as it ships. *)
Definition shipped : JsValue :=
  JObject [("hedera", JObject [("mirror", JObject [
    ("importer", JObject [
       ("dataPath", JString "/node/");
       ("downloader", JObject [
          ("sources", JArray [JObject [("type", JString "LOCAL")]]);
          ("bucketName", JString "hedera-streams")]);
       ("startDate", JString "1970-01-01T00:00:00Z")]);
    ("monitor", JObject [
       ("nodes", JArray [JObject [("accountId", JString "0.0.3");
                                  ("host", JString "network-node")]]);
       ("publish", JObject [("enabled", JBool false)])]);
    ("grpc", JObject [("port", JNumber "5600")])])])].

(** Copies every file below [pair.1] to the same place below [pair.2];
    fails when there is none. *)
Definition copyOne (f : option FileSystem) (pair : string * string) : option FileSystem :=
  f ≫= fun f =>
    let src := pair.1 in
    let found :=
      filter (fun entry => String.prefix src entry.1 = true) (map_to_list (files f)) in
    match found with
    | [] => None
    | _ =>
        Some (mkFileSystem
                (foldl (fun m entry =>
                          let rest := String.substring (String.length src)
                                        (String.length entry.1 - String.length src) entry.1 in
                          <[pair.2 +:+ (if Posix.ends_with_slash src
                                         then (if decide (rest = EmptyString) then rest
                                               else "/" +:+ rest)
                                         else rest) := entry.2]> m)
                       (files f) found)
                (dirs f))
    end.

(** The pairs are copied one after the other; the first pair that cannot
    be copied ends the copy with an exception, and the pairs copied before
    it stay copied. *)
Fixpoint copyAll (mapping : list (string * string)) (f : FileSystem)
    : Completion unit * FileSystem :=
  match mapping with
  | [] => (Normal tt, f)
  | entry :: rest =>
      match copyOne (Some f) entry with
      | Some f' => copyAll rest f'
      | None => (Throw (FileSystemError entry.1), f)
      end
  end.

Definition platform : Platform :=
  mkPlatform Posix.join "/app/build/state"
    (fun text => if decide (text = render shipped) then Some shipped else None)
    (fun lineWidth v => Some (render v))
    (fun root f =>
       (Normal tt, mkFileSystem (files f) (dirs f ∪ {[ root +:+ "/network-logs/node" ]})))
    copyAll.

(** A machine that is ready, with the optional port 8080 taken; one whose
    Docker has too few resources; one with the necessary port 5600 taken. *)
Definition machine : Host := mkHost true true (fun _ => true) [8080] (fun _ => true).
Definition starved : Host := mkHost true true (fun _ => false) [] (fun _ => true).
Definition crowded : Host := mkHost true true (fun _ => true) [5600] (fun _ => true).

Definition template : OriginalNodeConfiguration :=
  mkOriginalNodeConfiguration
    [mkConfiguration "ledger.id" "0x03"; mkConfiguration "contracts.chainId" "298"]
    (mkTurboNodeProperties (JString "/tmp/turbo")
       (JArray [JObject [("type", JString "LOCAL_TURBO")]]))
    (JObject [("deleteAfterProcessing", JBool false)])
    (JArray [JObject [("accountId", JString "0.0.3"); ("host", JString "network-node")];
             JObject [("accountId", JString "0.0.4"); ("host", JString "network-node-1")]]).

(** An entry whose environment list names a rate-limit variable and a
    working-directory variable, and an entry with image tags only. *)
Definition localNetwork : NetworkConfiguration :=
  mkNetworkConfiguration
    [mkConfiguration "NETWORK_NODE_IMAGE_TAG" "0.49.0"]
    (Some [mkConfiguration "RELAY_RATE_LIMIT_DISABLED" "false";
           mkConfiguration "NETWORK_NODE_LOGS_ROOT_PATH" "/catalog/logs"])
    (Some (mkNodeConfiguration [mkConfiguration "contracts.chainId" "296"])).

Definition bareNetwork : NetworkConfiguration :=
  mkNetworkConfiguration [mkConfiguration "NETWORK_NODE_IMAGE_TAG" "0.49.0"] None None.

(** A catalog that fails on an identifier it does not have, and one that
    answers with the local entry then. *)
Definition catalog : ConfigurationData :=
  mkConfigurationData [("local", localNetwork); ("bare", bareNetwork)] None.

Definition lenient : ConfigurationData :=
  mkConfigurationData [("local", localNetwork); ("bare", bareNetwork)] (Some localNetwork).

Definition disk : FileSystem :=
  mkFileSystem
    (list_to_map
       [("/app/compose-network/network-node/data/config/bootstrap.properties", "stale=1");
        ("/app/compose-network/mirror-node/application.yml", render shipped);
        ("/app/src/services/record-parser/package.json", "{}")])
    ∅.

(** The working directory once it has been prepared. *)
Definition prepared : FileSystem :=
  mkFileSystem
    (list_to_map
       [("/work/compose-network/network-node/data/config/bootstrap.properties", "stale=1");
        ("/work/compose-network/mirror-node/application.yml", render shipped)])
    ∅.

Definition options (net : string) (full multi debug lim : bool) : CLIOptions :=
  mkCLIOptions net "/work" "127.0.0.1" false full multi debug lim.

Definition state (o : CLIOptions) : InitState := mkInitState o true.

(** [onStart] on a machine, from an empty environment and the disk above. *)
Definition run (H : Host) (o : CLIOptions) : Completion unit * World :=
  @onStart platform H template catalog (state o) (initial ∅ disk).
End Example.

(** ** Instances on which a step fails

    The machine with the properties file read-only; a platform that cannot
    create the directories; a source tree without the record parser, on
    which the copy fails at its third pair; an application document
    without a monitor section and one whose monitor section is a sequence,
    each with the platform that reads it and the working directory that
    holds it; a state nobody has subscribed to. *)

Module Faults.
Definition readOnly : Host :=
  mkHost true true (fun _ => true) [8080]
    (fun path =>
       negb (bool_decide
               (path = "/work/compose-network/network-node/data/config/bootstrap.properties"))).

Definition sealed : Platform :=
  mkPlatform Posix.join "/app/build/state"
    (@yaml_load Example.platform) (@yaml_dump Example.platform)
    (fun root f => (Throw (FileSystemError root), f))
    (@copyPaths Example.platform).

(** A source tree without the record parser. *)
Definition incomplete : FileSystem :=
  mkFileSystem
    (list_to_map
       [("/app/compose-network/network-node/data/config/bootstrap.properties", "stale=1");
        ("/app/compose-network/mirror-node/application.yml",
         Example.render Example.shipped)])
    ∅.

Definition headless : JsValue :=
  JObject [("hedera", JObject [("mirror", JObject [
    ("grpc", JObject [("port", JNumber "5600")])])])].

Definition reader : Platform :=
  mkPlatform Posix.join "/app/build/state"
    (fun text => if decide (text = Example.render headless) then Some headless else None)
    (@yaml_dump Example.platform)
    (@createEphemeralDirectories Example.platform)
    (@copyPaths Example.platform).

Definition trimmed : FileSystem :=
  mkFileSystem
    (list_to_map
       [("/work/compose-network/mirror-node/application.yml", Example.render headless)])
    ∅.

Definition unsubscribed (o : CLIOptions) : InitState := mkInitState o false.

(** An application document whose monitor section is a sequence, the
    platform that reads it and the working directory that holds it. *)
Definition listed : JsValue :=
  JObject [("hedera", JObject [("mirror", JObject [
    ("monitor", JArray [JObject [("nodes", JArray [])]]);
    ("grpc", JObject [("port", JNumber "5600")])])])].

Definition lister : Platform :=
  mkPlatform Posix.join "/app/build/state"
    (fun text => if decide (text = Example.render listed) then Some listed else None)
    (@yaml_dump Example.platform)
    (@createEphemeralDirectories Example.platform)
    (@copyPaths Example.platform).

Definition sequenced : FileSystem :=
  mkFileSystem
    (list_to_map
       [("/work/compose-network/mirror-node/application.yml", Example.render listed)])
    ∅.
End Faults.

(** * Reasoning about runs *)

Lemma bind_modify {B} (g : World -> World) (k : unit -> M B) w :
  bind (modify g) k w = k tt (g w).
Proof. reflexivity. Qed.

Lemma run_bind {A B} (m : M A) (k : A -> M B) (w : World) :
  bind m k w = match m w with
               | (Normal a, w') => k a w'
               | (Throw e, w') => (Throw e, w')
               end.
Proof. reflexivity. Qed.

Lemma bind_ret {A B} (a : A) (k : A -> M B) w : bind (ret a) k w = k a w.
Proof. reflexivity. Qed.

Lemma bind_bind {A B C} (m : M A) (k1 : A -> M B) (k2 : B -> M C) w :
  bind (bind m k1) k2 w = bind m (fun a => bind (k1 a) k2) w.
Proof. rewrite !run_bind. destruct (m w) as [[a|e] w1]; reflexivity. Qed.

Global Instance unchanged_preorder {X} (proj : World -> X) : PreOrder (unchanged proj).
Proof.
  split.
  - intros w. reflexivity.
  - intros w1 w2 w3 H12 H23. unfold unchanged in *. congruence.
Qed.

Global Instance extended_preorder {X} (proj : World -> list X) (good : X -> Prop) :
  PreOrder (extended proj good).
Proof.
  split.
  - intros w. exists []. split; [by rewrite app_nil_r | constructor].
  - intros w1 w2 w3 [l1 [E1 F1]] [l2 [E2 F2]].
    exists (l1 ++ l2)%list. split.
    + by rewrite E2, E1, app_assoc.
    + by apply Forall_app.
Qed.

Section Frame.
Context (R : relation World) `{!PreOrder R}.

Lemma preserves_ret {A} (a : A) : preserves R (ret a).
Proof. intros w out w' E. inversion E. reflexivity. Qed.

Lemma preserves_throw {A} (e : JsError) : preserves R (@throw A e).
Proof. intros w out w' E. inversion E. reflexivity. Qed.

Lemma preserves_lift {A} (c : Completion A) : preserves R (lift c).
Proof. intros w out w' E. inversion E. reflexivity. Qed.

Lemma preserves_modify (g : World -> World) :
  (forall w, R w (g w)) -> preserves R (modify g).
Proof. intros Hg w out w' E. inversion E. apply Hg. Qed.

Lemma preserves_bind {A B} (m : M A) (k : A -> M B) :
  preserves R m -> (forall a, preserves R (k a)) -> preserves R (bind m k).
Proof.
  intros Hm Hk w out w' E. rewrite run_bind in E.
  destruct (m w) as [[a|e] w1] eqn:Em.
  - transitivity w1; [by eapply Hm | by eapply Hk].
  - inversion E; subst. by eapply Hm.
Qed.

Lemma preserves_forEach {A} (l : list A) (body : A -> M unit) :
  (forall x, preserves R (body x)) -> preserves R (forEach l body).
Proof.
  intros Hb. induction l as [|x l IH]; simpl.
  - apply preserves_ret.
  - apply preserves_bind; [apply Hb | intros _; apply IH].
Qed.

(** The two effects written as a match on the world. *)
Lemma preserves_read (path : string) :
  (forall w, R w (with_call (ReadFileSync path) w)) -> preserves R (readFileSync path).
Proof.
  intros Hc. apply preserves_bind; [by apply preserves_modify |].
  intros _ w out w' E. destruct (files (fs w) !! path); inversion E; reflexivity.
Qed.

Lemma preserves_attempt (op : FileSystem -> Completion unit * FileSystem) :
  (forall w f, R w (with_fs f w)) -> preserves R (attempt op).
Proof.
  intros Hf w out w' E. unfold attempt in E. inversion E. apply Hf.
Qed.
End Frame.

Lemma preserves_appendProperties (R : relation World) `{!PreOrder R} acc l :
  (forall w entry, R w (with_log entry w)) -> preserves R (appendProperties acc l).
Proof.
  intros Hlog. revert acc. induction l as [|property l IH]; intros acc; simpl.
  - apply preserves_ret, _.
  - apply preserves_bind; [apply _ | apply preserves_modify; intros w; apply Hlog |].
    intros _. apply IH.
Qed.

(** Decomposes a goal [preserves R m] along the structure of [m]; what is
    left are the steps of [m] that touch the component [R] watches. *)
Ltac frame_step :=
  first
    [ apply preserves_read; [apply _ | intros ?]
    | apply preserves_attempt; intros ? ?
    | apply preserves_appendProperties; [apply _ | intros ? ?]
    | apply preserves_forEach; [apply _ | intros ?]
    | apply preserves_bind; [apply _ | | intros ?]
    | apply preserves_ret; apply _
    | apply preserves_throw; apply _
    | apply preserves_lift; apply _
    | apply preserves_modify; intros ?
    | match goal with
      | |- preserves _ (if ?b then _ else _) => destruct b
      | |- preserves _ (match ?x with _ => _ end) => destruct x
      end ].

Ltac frame :=
  unfold isPortInUse, prepareWorkDirectory, configureEnvVariables, exportVariable,
    configureNodeProperties, configureMirrorNodeProperties, getSelectedConfigurationData,
    FileSystemUtils_createEphemeralDirectories, FileSystemUtils_copyPaths, fsutil,
    isCorrectDockerComposeVersion, checkDocker, checkDockerResources,
    writeFileSync, logger, setenv, update;
  repeat frame_step;
  try (unfold unchanged; reflexivity);
  try (eexists [_]; split; [reflexivity | repeat constructor]; fail);
  try (exists []; split; [symmetry; apply app_nil_r | constructor]).

Section Properties.
Context {P : Platform} {H : Host}
        {originalNodeConfiguration : OriginalNodeConfiguration}
        {catalog : ConfigurationData}.

(** **** The shape of a run of [onStart] *)

Lemma entry_for_known (net : string) (configurationData : NetworkConfiguration) :
  prop_get net networks = Some configurationData ->
  entry_for net = Some configurationData.
Proof. unfold entry_for. by intros ->. Qed.

Lemma onStart_eq (this : InitState) (w : World) :
  onStart this w =
  match entry_for (network (cliOptions this)) with
  | None => (Throw (Unresolvable (network (cliOptions this))), asked this w)
  | Some configurationData =>
      if ready this
      then materialize this configurationData (probed this w)
      else update this UnresolvableError (probed this w)
  end.
Proof.
  unfold onStart, getSelectedConfigurationData, ready.
  destruct (entry_for (network (cliOptions this))) as [configurationData|];
    [| reflexivity].
  unfold bind at 1 2 3. cbn [logger modify ret].
  unfold bind at 1 2, isCorrectDockerComposeVersion. unfold bind at 1. cbn [modify ret].
  unfold bind at 1, checkDocker. unfold bind at 1. cbn [modify ret].
  unfold bind at 1, checkDockerResources. unfold bind at 1. cbn [modify ret].
  unfold probed, asked.
  destruct composeVersionCorrect, dockerStarted,
    (dockerResources (multiNode (cliOptions this))); reflexivity.
Qed.

Lemma materialize_calls this configurationData :
  preserves (extended calls (fun c => failedCheck c = false))
            (materialize this configurationData).
Proof. unfold materialize. frame. Qed.

(** C1. In every run of [onStart] in which one of the three readiness
    checks returns false, the three checks have all been made, the observer
    has received UnresolvableError and nothing else, and the file tree and
    the process environment are as they were. *)
Theorem readiness_failure_is_a_no_op
    (this : InitState) (e : gmap string string) (f : FileSystem)
    (out : Completion unit) (w' : World) :
  observer this = true ->
  onStart this (initial e f) = (out, w') ->
  (exists c, c ∈ calls w' /\ failedCheck c = true) ->
  calls w' =
    [ GetSelectedConfigurationData (network (cliOptions this));
      IsCorrectDockerComposeVersion composeVersionCorrect;
      CheckDocker dockerStarted;
      CheckDockerResources (multiNode (cliOptions this))
        (dockerResources (multiNode (cliOptions this))) ]
  /\ out = Normal tt
  /\ events w' = [UnresolvableError]
  /\ fs w' = f
  /\ env w' = e.
Proof.
  intros Hobs Hrun [c [Hin Hfail]]. rewrite onStart_eq in Hrun.
  destruct (entry_for (network (cliOptions this))) as [configurationData|].
  - destruct (ready this) eqn:Hready.
    + exfalso. apply materialize_calls in Hrun as [l [Hcalls Hl]].
      rewrite Hcalls in Hin. apply elem_of_app in Hin as [Hin|Hin].
      * unfold ready in Hready.
        apply andb_prop in Hready as [Hready H3].
        apply andb_prop in Hready as [H1 H2].
        cbn in Hin. rewrite H1, H2, H3 in Hin.
        repeat (apply elem_of_cons in Hin as [->|Hin]; [discriminate Hfail |]).
        by apply elem_of_nil in Hin.
      * rewrite Forall_forall in Hl. specialize (Hl c Hin). congruence.
    + unfold update in Hrun. rewrite Hobs in Hrun. inversion Hrun; subst.
      repeat split; reflexivity.
  - exfalso. inversion Hrun; subst. cbn in Hin.
    apply elem_of_cons in Hin as [->|Hin]; [discriminate Hfail |].
    by apply elem_of_nil in Hin.
Qed.

(** **** The port scan *)

Lemma scan_run (ports : list Z) (w : World) :
  forEach ports (fun port =>
    if busy port && optional port
    then modify (with_log (portAdvisory port))
    else ret tt) w = (Normal tt, foldl advise w ports).
Proof.
  revert w. induction ports as [|port ports IH]; intros w; [reflexivity |].
  cbn [forEach foldl]. rewrite run_bind. unfold advise at 2.
  destruct (busy port && optional port); cbn [modify ret]; apply IH.
Qed.

Lemma isPortInUse_run (ports : list Z) (w : World) :
  isPortInUse ports w =
  ( match filter (fun port => busy port && necessary port = true) ports with
    | port :: _ => Throw (PortConflict port)
    | [] => Normal tt
    end,
    foldl advise (with_call (IsPortInUse ports) w) ports ).
Proof.
  unfold isPortInUse. rewrite bind_modify, run_bind, scan_run.
  destruct (filter _ ports); reflexivity.
Qed.

Lemma advise_frame (ports : list Z) (w : World) :
  env (foldl advise w ports) = env w /\ fs (foldl advise w ports) = fs w
  /\ events (foldl advise w ports) = events w
  /\ calls (foldl advise w ports) = calls w.
Proof.
  revert w. induction ports as [|port ports IH]; intros w; [done |].
  cbn [foldl]. destruct (IH (advise w port)) as (-> & -> & -> & ->).
  unfold advise. by destruct (busy port && optional port).
Qed.

Lemma advise_log (ports : list Z) (w : World) (port : Z) :
  port ∈ ports -> busy port = true -> optional port = true ->
  portAdvisory port ∈ log (foldl advise w ports).
Proof.
  intros Hin Hbusy Hopt. revert w.
  induction ports as [|q ports IH]; intros w; [by apply elem_of_nil in Hin |].
  cbn [foldl]. apply elem_of_cons in Hin as [<-|Hin]; [| by apply IH].
  assert (Hkeep : forall l u, portAdvisory port ∈ log u ->
                              portAdvisory port ∈ log (foldl advise u l)).
  { clear. induction l as [|q l IHl]; intros u Hu; [done |].
    cbn [foldl]. apply IHl. unfold advise.
    destruct (busy q && optional q); [| done].
    cbn. apply elem_of_app. by left. }
  apply Hkeep. unfold advise. rewrite Hbusy, Hopt. cbn.
  apply elem_of_app. right. by apply list_elem_of_singleton.
Qed.

Lemma conflict_spec (port : Z) :
  busy port && necessary port = true <->
  port ∈ portsInUse /\ port ∈ NECESSARY_PORTS.
Proof.
  unfold busy, necessary. rewrite andb_true_iff, !bool_decide_eq_true. done.
Qed.

(** C3. In a run of [onStart] that has passed the readiness test, a taken
    necessary port ends the phase at the port scan: the run is aborted with
    a port conflict on such a port, no event is delivered and neither the
    file tree nor the environment is touched.  When no necessary port is
    taken, every taken optional port is logged and the run goes on to
    prepare the working directory. *)
Theorem necessary_port_fatal_optional_port_advisory
    (this : InitState) (configurationData : NetworkConfiguration)
    (e : gmap string string) (f : FileSystem) (out : Completion unit) (w' : World) :
  prop_get (network (cliOptions this)) networks = Some configurationData ->
  ready this = true ->
  onStart this (initial e f) = (out, w') ->
  ((exists port, port ∈ NECESSARY_PORTS /\ port ∈ portsInUse) ->
     (exists port, port ∈ NECESSARY_PORTS /\ port ∈ portsInUse
                   /\ out = Throw (PortConflict port))
     /\ events w' = [] /\ fs w' = f /\ env w' = e
     /\ CreateEphemeralDirectories (workDir (cliOptions this)) ∉ calls w')
  /\ ((forall port, port ∈ NECESSARY_PORTS -> port ∉ portsInUse) ->
      (forall port, port ∈ OPTIONAL_PORTS -> port ∈ portsInUse ->
                    portAdvisory port ∈ log w')
      /\ (exists w1, isPortInUse (NECESSARY_PORTS ++ OPTIONAL_PORTS)%list
                        (probed this (initial e f)) = (Normal tt, w1))
      /\ CreateEphemeralDirectories (workDir (cliOptions this)) ∈ calls w').
Proof.
  intros Hcat Hready Hrun. rewrite onStart_eq, (entry_for_known _ _ Hcat), Hready in Hrun.
  unfold materialize in Hrun. rewrite run_bind in Hrun.
  rewrite isPortInUse_run in *.
  set (ports := (NECESSARY_PORTS ++ OPTIONAL_PORTS)%list) in *.
  set (w0 := with_call (IsPortInUse ports) (probed this (initial e f))) in *.
  destruct (advise_frame ports w0) as (Henv & Hfs & Hev & Hcalls).
  split.
  - intros [port [Hnec Hbusy]].
    assert (Hin : port ∈ filter (fun port => busy port && necessary port = true) ports).
    { apply list_elem_of_filter. split; [by apply conflict_spec |].
      apply elem_of_app. by left. }
    destruct (filter _ ports) as [|q l] eqn:Hfilter; [by apply elem_of_nil in Hin |].
    assert (Hq : q ∈ filter (fun port => busy port && necessary port = true) ports)
      by (rewrite Hfilter; apply elem_of_cons; by left).
    apply list_elem_of_filter in Hq as [Hq _]. apply conflict_spec in Hq as [Hq1 Hq2].
    assert (Hout : out = Throw (PortConflict q)) by exact (eq_sym (f_equal fst Hrun)).
    assert (Hw : w' = foldl advise w0 ports) by exact (eq_sym (f_equal snd Hrun)).
    rewrite Hout, Hw, Henv, Hfs, Hev, Hcalls.
    repeat split; [by exists q | ].
    cbn. intros Hc. repeat (apply elem_of_cons in Hc as [Hc|Hc]; [discriminate Hc |]).
    by apply elem_of_nil in Hc.
  - intros Hfree.
    destruct (filter _ ports) as [|q l] eqn:Hfilter.
    2:{ exfalso.
        assert (Hq : q ∈ filter (fun port => busy port && necessary port = true) ports)
          by (rewrite Hfilter; apply elem_of_cons; by left).
        apply list_elem_of_filter in Hq as [Hq _]. apply conflict_spec in Hq as [Hq1 Hq2].
        by apply (Hfree q). }
    unfold logger at 1 in Hrun. rewrite bind_modify in Hrun.
    unfold prepareWorkDirectory, logger at 1 in Hrun.
    rewrite bind_bind, bind_modify in Hrun.
    unfold FileSystemUtils_createEphemeralDirectories, fsutil in Hrun.
    rewrite !bind_bind, bind_modify in Hrun.
    match type of Hrun with
    | ?m ?w1 = _ =>
        assert (Hlog : preserves (extended log (fun _ => True)) m) by frame;
        assert (Hcall : preserves (extended calls (fun _ => True)) m) by frame;
        apply Hlog in Hrun as Hl; apply Hcall in Hrun as Hc
    end.
    destruct Hl as [l1 [-> _]], Hc as [l2 [-> _]]. repeat split; [| by eexists |].
    + intros port Hopt Hbusy. cbn [log with_call with_log].
      apply elem_of_app. left. apply elem_of_app. left. apply elem_of_app. left.
      apply advise_log.
      * apply elem_of_app. by right.
      * by apply bool_decide_eq_true.
      * by apply bool_decide_eq_true.
    + cbn [calls with_call with_log]. rewrite Hcalls.
      apply elem_of_app. left. apply elem_of_app. right.
      by apply list_elem_of_singleton.
Qed.

(** **** The events of a run *)

Lemma delivers_update (this : InitState) (ev : EventType) :
  delivers this ev (update this ev).
Proof.
  intros w out w'. unfold update. destruct (observer this); intros [= <- <-].
  - left. done.
  - right. by eexists.
Qed.

Lemma delivers_bind {A} (this : InitState) (ev : EventType) (m : M A) (k : A -> M unit) :
  preserves (unchanged events) m -> (forall a, delivers this ev (k a)) ->
  delivers this ev (bind m k).
Proof.
  intros Hm Hk w out w' Hrun. rewrite run_bind in Hrun.
  destruct (m w) as [[a|err] w1] eqn:E; pose proof (Hm _ _ _ E) as V; unfold unchanged in V.
  - rewrite <- V. by apply (Hk a).
  - injection Hrun as <- <-. right. by eexists.
Qed.

Lemma materialize_delivers (this : InitState) (configurationData : NetworkConfiguration) :
  delivers this Finish (materialize this configurationData).
Proof.
  unfold materialize.
  apply delivers_bind; [frame | intros _].
  apply delivers_bind; [frame | intros _].
  apply delivers_bind; [frame | intros _].
  apply delivers_bind; [frame | intros _].
  apply delivers_bind; [frame | intros _].
  apply delivers_bind; [frame | intros _].
  apply delivers_update.
Qed.

(** C2 (amended). For an unrecognized network identifier [onStart] emits
    nothing on account of the identifier.  When the catalog lookup fails,
    the failure ends the run there, before any readiness check: the
    observer receives no event, UnresolvableError included, and neither
    the file tree nor the environment is touched.  When the lookup answers
    with an entry all the same, the run is the run on that entry, as if
    the identifier were recognized, and UnresolvableError is delivered
    only if a readiness check has failed. *)
Theorem unknown_network_emits_nothing_of_its_own
    (this : InitState) (e : gmap string string) (f : FileSystem) :
  prop_get (network (cliOptions this)) networks = None ->
  (otherwise = None ->
   exists w',
     onStart this (initial e f)
     = (Throw (Unresolvable (network (cliOptions this))), w')
     /\ events w' = []
     /\ calls w' = [GetSelectedConfigurationData (network (cliOptions this))]
     /\ fs w' = f
     /\ env w' = e)
  /\ (forall configurationData,
        otherwise = Some configurationData ->
        onStart this (initial e f)
        = onStart (catalog := mkConfigurationData
                                [(network (cliOptions this), configurationData)] None)
            this (initial e f)
        /\ forall out w',
             onStart this (initial e f) = (out, w') ->
             UnresolvableError ∈ events w' -> ready this = false).
Proof.
  intros Hcat. split.
  - intros Hno. rewrite onStart_eq. unfold entry_for. rewrite Hcat, Hno.
    eexists. split; [reflexivity |]. repeat split.
  - intros configurationData Hdefault.
    assert (Heq : onStart this (initial e f)
                  = if ready this
                    then materialize this configurationData (probed this (initial e f))
                    else update this UnresolvableError (probed this (initial e f))).
    { rewrite onStart_eq. unfold entry_for. by rewrite Hcat, Hdefault. }
    split.
    + unfold onStart, getSelectedConfigurationData, entry_for.
      cbn [networks otherwise prop_get]. rewrite Hcat, Hdefault.
      by rewrite decide_True.
    + intros out w' Hrun Hin. rewrite Heq in Hrun.
      destruct (ready this); [| reflexivity].
      destruct (materialize_delivers _ _ _ _ _ Hrun) as [(_ & _ & Hev) | (err & _ & Hev)];
        rewrite Hev in Hin; cbn in Hin.
      * apply list_elem_of_singleton in Hin. discriminate Hin.
      * by apply elem_of_nil in Hin.
Qed.

(** **** The environment step *)

Lemma export_run (l : list Configuration) (w : World) :
  forEach l exportVariable w = (Normal tt, foldl exportStep w l).
Proof.
  revert w. induction l as [|variable l IH]; intros w; [reflexivity |].
  cbn [forEach foldl]. rewrite run_bind. unfold exportVariable at 1.
  unfold setenv, logger. rewrite bind_modify. cbn [modify]. apply IH.
Qed.

Lemma export_frame (l : list Configuration) (w : World) :
  env (foldl exportStep w l) = exported l (env w)
  /\ fs (foldl exportStep w l) = fs w
  /\ events (foldl exportStep w l) = events w
  /\ calls (foldl exportStep w l) = calls w.
Proof.
  revert w. induction l as [|variable l IH]; intros w; [done |].
  cbn [foldl]. destruct (IH (exportStep w variable)) as (-> & -> & -> & ->). done.
Qed.

Lemma configureEnvVariables_some this imageTagConfiguration envConfiguration w :
  exists w',
    configureEnvVariables this imageTagConfiguration (Some envConfiguration) w
    = (Normal tt, w')
    /\ env w' = rateLimited this (exported envConfiguration
                                    (exported imageTagConfiguration (env w)))
    /\ fs w' = fs w /\ events w' = events w /\ calls w' = calls w.
Proof.
  unfold configureEnvVariables. rewrite run_bind, export_run, run_bind, export_run.
  destruct (export_frame imageTagConfiguration w) as (E1 & F1 & V1 & C1).
  destruct (export_frame envConfiguration (foldl exportStep w imageTagConfiguration))
    as (E2 & F2 & V2 & C2).
  unfold rateLimited, setenv, logger.
  destruct (limits (cliOptions this)); cbn [negb];
    eexists; (split; [reflexivity |]); cbn; rewrite E2, F2, V2, C2, E1, F1, V1, C1; done.
Qed.

Lemma configureEnvVariables_none this imageTagConfiguration w :
  exists w',
    configureEnvVariables this imageTagConfiguration None w = (Normal tt, w')
    /\ env w' = exported imageTagConfiguration (env w)
    /\ fs w' = fs w /\ events w' = events w /\ calls w' = calls w.
Proof.
  unfold configureEnvVariables. rewrite run_bind, export_run.
  destruct (export_frame imageTagConfiguration w) as (E1 & F1 & V1 & C1).
  eexists; (split; [reflexivity |]); cbn; rewrite E1, F1, V1, C1; done.
Qed.

(** **** The mirror node document *)

Lemma configureMirrorNodeProperties_eq (this : InitState) (w : World) :
  configureMirrorNodeProperties this w =
  let path := applicationPath this in
  let w1 :=
    with_call (ReadFileSync path)
      (with_log
         (mkLogEntry LTrace
            "Configuring required mirror node properties, depending on selected configuration..."
            stateName) w) in
  match files (fs w) !! path with
  | None => (Throw (FileSystemError path), w1)
  | Some content =>
      match yaml_load content with
      | None => (Throw YAMLException, w1)
      | Some application =>
          match mutated this application with
          | Throw e => (Throw e, w1)
          | Normal application' =>
              match yaml_dump 256 application' with
              | None => (Throw YAMLException, relayed this w1)
              | Some text =>
                  let w2 := with_call (WriteFileSync path text) (relayed this w1) in
                  if writable path
                  then (Normal tt,
                        with_log
                          (mkLogEntry LInfo
                             "Needed mirror node properties were set for this configuration."
                             stateName)
                          (with_fs (written path text (fs w2)) w2))
                  else (Throw (FileSystemError path), w2)
              end
          end
      end
  end.
Proof.
  unfold configureMirrorNodeProperties, mutated, turboBlock, debugBlock, multiBlock,
    relayed, applicationPath, readFileSync,
    writeFileSync, logger, setenv.
  rewrite bind_modify, bind_bind, bind_modify, run_bind. cbn [files fs with_call with_log].
  destruct (files (fs w) !! _) as [content|]; [| reflexivity].
  destruct (yaml_load content) as [application|]; [| reflexivity].
  rewrite bind_ret.
  destruct (fullMode (cliOptions this)), (enableDebug (cliOptions this)),
    (multiNode (cliOptions this)); cbn [negb andThen];
    repeat (cbv beta iota delta [bind lift ret modify throw andThen];
            match goal with
            | |- context [assign ?p ?x ?v] => destruct (assign p x v)
            | |- context [yaml_dump 256 ?a] => destruct (yaml_dump 256 a)
            | |- context [writable ?a] => destruct (writable a)
            end);
    reflexivity.
Qed.

(** **** Assignment along a path *)

Lemma prop_get_set_eq {V} (k : string) (x : V) ms : prop_get k (prop_set k x ms) = Some x.
Proof.
  induction ms as [|[k' v] ms IH]; simpl.
  - by rewrite decide_True.
  - destruct (decide (k = k')) as [->|Hne]; simpl.
    + by rewrite decide_True.
    + by rewrite decide_False.
Qed.

Lemma prop_get_set_ne {V} (k k' : string) (x : V) ms :
  k <> k' -> prop_get k' (prop_set k x ms) = prop_get k' ms.
Proof.
  intros Hne. induction ms as [|[k0 v] ms IH]; simpl.
  - by rewrite decide_False.
  - destruct (decide (k = k0)) as [->|Hne0]; simpl.
    + by rewrite !decide_False.
    + destruct (decide (k' = k0)); [done | apply IH].
Qed.

Lemma assign_step k k2 rest x v :
  assign (k :: k2 :: rest) x v =
  match getProp v k with
  | Normal child =>
      match assign (k2 :: rest) x child with
      | Normal child' =>
          Normal (match v with
                  | JObject ms => JObject (prop_set k child' ms)
                  | _ => v
                  end)
      | Throw e => Throw e
      end
  | Throw e => Throw e
  end.
Proof. reflexivity. Qed.

(** A successful assignment below [v.k] means that [v] is a mapping: on
    anything else [v.k] is undefined or raises. *)
Lemma assign_below_undefined k rest x : assign (k :: rest) x JUndefined = Throw (TypeError k).
Proof. destruct rest; reflexivity. Qed.

Lemma assign_inv k k2 rest x v v' :
  assign (k :: k2 :: rest) x v = Normal v' ->
  exists ms child child',
    v = JObject ms /\ default JUndefined (prop_get k ms) = child
    /\ assign (k2 :: rest) x child = Normal child'
    /\ v' = JObject (prop_set k child' ms).
Proof.
  rewrite assign_step. intros E.
  destruct v as [| | b | n | t | xs | ms]; cbn [getProp] in E;
    try discriminate E; try (rewrite assign_below_undefined in E; discriminate E).
  destruct (assign (k2 :: rest) x (default JUndefined (prop_get k ms))) as [child'|] eqn:Ec;
    [| discriminate E].
  injection E as <-. by exists ms, (default JUndefined (prop_get k ms)), child'.
Qed.

(** What is read along a path that diverges from the assigned one is what
    was there before. *)
Lemma assign_frame (p q : list string) (x v v' : JsValue) :
  assign p x v = Normal v' -> diverge q p = true -> get_path q v' = get_path q v.
Proof.
  revert q v v'. induction p as [|k rest IH]; intros q v v' E D.
  - by destruct q.
  - destruct q as [|k' q']; [discriminate D |]. cbn [diverge] in D.
    destruct rest as [|k2 rest].
    + destruct (decide (k' = k)) as [->|Hne]; [by destruct q' |].
      cbn [assign] in E. destruct v; try discriminate E; injection E as <-; [done |].
      cbn [get_path getProp]. by rewrite prop_get_set_ne.
    + apply assign_inv in E as (ms & child & child' & -> & Hc & Ea & ->).
      cbn [get_path getProp].
      destruct (decide (k' = k)) as [->|Hne].
      * rewrite prop_get_set_eq, Hc. cbn [default id]. by apply IH.
      * by rewrite prop_get_set_ne.
Qed.

(** Where the holder of the assigned property is a mapping, the mapping
    has the property afterwards, in place. *)
Lemma assign_holder (holder : list string) (k : string) (x v v' : JsValue) ms :
  assign (holder ++ [k]) x v = Normal v' ->
  get_path holder v = Normal (JObject ms) ->
  get_path holder v' = Normal (JObject (prop_set k x ms)).
Proof.
  revert v v'. induction holder as [|h holder IH]; intros v v' E G.
  - cbn in *. injection G as ->. cbn in E. by injection E as <-.
  - cbn [app] in E. destruct (holder ++ [k])%list as [|k2 rest] eqn:Hrest;
      [by destruct holder |].
    apply assign_inv in E as (ms0 & child & child' & -> & Hc & Ea & ->).
    cbn [get_path getProp] in *. rewrite prop_get_set_eq, Hc in *. cbn [default id].
    by apply (IH child).
Qed.

Lemma get_path_snoc (holder : list string) (k : string) (v : JsValue) ms :
  get_path holder v = Normal (JObject ms) ->
  get_path (holder ++ [k]) v = Normal (default JUndefined (prop_get k ms)).
Proof.
  revert v. induction holder as [|h holder IH]; intros v G.
  - cbn in *. by injection G as ->.
  - cbn [app get_path] in *. destruct (getProp v h); [by apply IH | discriminate G].
Qed.

Lemma assign_read (holder : list string) (k : string) (x v v' : JsValue) :
  assign (holder ++ [k]) x v = Normal v' ->
  is_mapping_at holder v ->
  get_path (holder ++ [k]) v' = Normal x /\ is_mapping_at holder v'.
Proof.
  intros E [ms G]. pose proof (assign_holder _ _ _ _ _ _ E G) as G'. split.
  - rewrite (get_path_snoc _ _ _ _ G'), prop_get_set_eq. done.
  - by eexists.
Qed.

(** Where the holder is a mapping the assignment succeeds. *)
Lemma assign_total (holder : list string) (k : string) (x v : JsValue) :
  is_mapping_at holder v -> exists v', assign (holder ++ [k]) x v = Normal v'.
Proof.
  revert v. induction holder as [|h holder IH]; intros v [ms G].
  - cbn in G. injection G as ->. by eexists.
  - cbn [app]. destruct (holder ++ [k])%list as [|k2 rest] eqn:Hrest;
      [by destruct holder |].
    rewrite assign_step. cbn [get_path] in G.
    destruct (getProp v h) as [child|] eqn:Hg; [| discriminate G].
    destruct (IH child) as [child' ->]; [by exists ms |]. by eexists.
Qed.

(** **** The three blocks *)

Lemma is_mapping_at_frame (q : list string) (v v' : JsValue) :
  get_path q v' = get_path q v -> is_mapping_at q v -> is_mapping_at q v'.
Proof. intros E [ms G]. exists ms. by rewrite E. Qed.

Lemma turboBlock_spec (this : InitState) (application application' : JsValue) :
  turboBlock this application = Normal application' ->
  (forall q, (fullMode (cliOptions this) = false ->
              diverge q importer_dataPath = true /\ diverge q downloader_sources = true) ->
             get_path q application' = get_path q application)
  /\ (fullMode (cliOptions this) = false -> is_mapping_at importer application ->
      get_path importer_dataPath application'
      = Normal (dataPath turboNodeProperties))
  /\ (fullMode (cliOptions this) = false -> is_mapping_at downloader application ->
      get_path downloader_sources application'
      = Normal (sources turboNodeProperties))
  /\ (is_mapping_at downloader application -> is_mapping_at downloader application').
Proof.
  unfold turboBlock. destruct (fullMode (cliOptions this)); cbn [negb].
  - intros [= <-]. repeat split; intros; done.
  - unfold andThen.
    destruct (assign importer_dataPath _ application) as [application1|] eqn:E1;
      [| discriminate].
    intros E2.
    assert (Hd : is_mapping_at downloader application ->
                 is_mapping_at downloader application1).
    { apply is_mapping_at_frame. by apply (assign_frame _ _ _ _ _ E1). }
    repeat split.
    + intros q Hq. destruct (Hq eq_refl) as [D1 D2].
      rewrite (assign_frame _ _ _ _ _ E2 D2). by apply (assign_frame _ _ _ _ _ E1).
    + intros _ Hm. rewrite (assign_frame _ importer_dataPath _ _ _ E2 eq_refl).
      by apply (assign_read importer "dataPath" _ _ _ E1).
    + intros _ Hm. by apply (assign_read downloader "sources" _ _ _ E2), Hd.
    + intros Hm. by apply (assign_read downloader "sources" _ _ _ E2), Hd.
Qed.

Lemma debugBlock_spec (this : InitState) (application application' : JsValue) :
  debugBlock this application = Normal application' ->
  (forall q, (enableDebug (cliOptions this) = true -> diverge q downloader_local = true) ->
             get_path q application' = get_path q application)
  /\ (enableDebug (cliOptions this) = true -> is_mapping_at downloader application ->
      get_path downloader_local application' = Normal local).
Proof.
  unfold debugBlock. destruct (enableDebug (cliOptions this)).
  - intros E. split.
    + intros q Hq. by apply (assign_frame _ _ _ _ _ E), Hq.
    + intros _ Hm. by apply (assign_read downloader "local" _ _ _ E).
  - intros [= <-]. split; intros; done.
Qed.

Lemma multiBlock_spec (this : InitState) (application application' : JsValue) :
  multiBlock this application = Normal application' ->
  (forall q, (multiNode (cliOptions this) = true -> diverge q monitor_nodes = true) ->
             get_path q application' = get_path q application)
  /\ (multiNode (cliOptions this) = true -> is_mapping_at monitor application ->
      get_path monitor_nodes application'
      = Normal multiNodeProperties).
Proof.
  unfold multiBlock. destruct (multiNode (cliOptions this)).
  - intros E. split.
    + intros q Hq. by apply (assign_frame _ _ _ _ _ E), Hq.
    + intros _ Hm. by apply (assign_read monitor "nodes" _ _ _ E).
  - intros [= <-]. split; intros; done.
Qed.

Lemma mutated_inv (this : InitState) (application application' : JsValue) :
  mutated this application = Normal application' ->
  exists application1 application2,
    turboBlock this application = Normal application1
    /\ debugBlock this application1 = Normal application2
    /\ multiBlock this application2 = Normal application'.
Proof.
  unfold mutated, andThen.
  destruct (turboBlock this application) as [application1|] eqn:E1; [| discriminate].
  destruct (debugBlock this application1) as [application2|] eqn:E2; [| discriminate].
  intros E. by exists application1, application2.
Qed.

Lemma mutated_total (this : InitState) (application : JsValue) :
  well_shaped this application ->
  exists application', mutated this application = Normal application'.
Proof.
  intros (Ht & Hd & Hm).
  assert (exists a1, turboBlock this application = Normal a1) as [a1 E1].
  { unfold turboBlock. destruct (fullMode (cliOptions this)); cbn [negb]; [by eexists |].
    destruct (Ht eq_refl) as [Hi Hdl].
    destruct (assign_total importer "dataPath" (dataPath turboNodeProperties) application Hi)
      as [a0 E0].
    change (importer ++ ["dataPath"])%list with importer_dataPath in E0.
    assert (Hdl0 : is_mapping_at downloader a0).
    { apply (is_mapping_at_frame downloader application); [| done].
      by apply (assign_frame _ _ _ _ _ E0). }
    destruct (assign_total downloader "sources" (sources turboNodeProperties) a0 Hdl0)
      as [a1 E1].
    change (downloader ++ ["sources"])%list with downloader_sources in E1.
    exists a1. unfold andThen. by rewrite E0. }
  destruct (turboBlock_spec _ _ _ E1) as (F1 & _ & _ & M1).
  assert (exists a2, debugBlock this a1 = Normal a2) as [a2 E2].
  { unfold debugBlock. destruct (enableDebug (cliOptions this)); [| by eexists].
    apply (assign_total downloader "local"), M1, Hd. reflexivity. }
  destruct (debugBlock_spec _ _ _ E2) as (F2 & _).
  assert (exists a3, multiBlock this a2 = Normal a3) as [a3 E3].
  { unfold multiBlock. destruct (multiNode (cliOptions this)); [| by eexists].
    apply (assign_total monitor "nodes").
    apply (is_mapping_at_frame monitor a1).
    - apply F2. intros _. reflexivity.
    - apply (is_mapping_at_frame monitor application); [| by apply Hm].
      apply F1. intros _. split; reflexivity. }
  exists a3. unfold mutated, andThen. by rewrite E1, E2.
Qed.

Lemma in_targets (this : InitState) :
  (fullMode (cliOptions this) = false ->
     importer_dataPath ∈ targets this /\ downloader_sources ∈ targets this)
  /\ (enableDebug (cliOptions this) = true -> downloader_local ∈ targets this)
  /\ (multiNode (cliOptions this) = true -> monitor_nodes ∈ targets this).
Proof.
  unfold targets. split; [| split]; intros ->; cbn [negb]; [split | |];
    rewrite ?elem_of_app, ?elem_of_cons; auto.
Qed.

(** What the three blocks do to the document. *)
Lemma mutated_spec
    (this : InitState) (application application' : JsValue) :
  mutated this application = Normal application' ->
  (forall q, (forall t, t ∈ targets this -> diverge q t = true) ->
             get_path q application' = get_path q application)
  /\ (fullMode (cliOptions this) = false ->
        (is_mapping_at importer application ->
           get_path importer_dataPath application'
           = Normal (dataPath turboNodeProperties))
        /\ (is_mapping_at downloader application ->
              get_path downloader_sources application'
              = Normal (sources turboNodeProperties)))
  /\ (fullMode (cliOptions this) = true ->
        get_path importer_dataPath application' = get_path importer_dataPath application
        /\ get_path downloader_sources application'
           = get_path downloader_sources application)
  /\ (enableDebug (cliOptions this) = true -> is_mapping_at downloader application ->
        get_path downloader_local application' = Normal local)
  /\ (enableDebug (cliOptions this) = false ->
        get_path downloader_local application' = get_path downloader_local application)
  /\ (multiNode (cliOptions this) = true -> is_mapping_at monitor application ->
        get_path monitor_nodes application'
        = Normal multiNodeProperties)
  /\ (multiNode (cliOptions this) = false ->
        get_path monitor_nodes application' = get_path monitor_nodes application).
Proof.
  intros Hm.
  destruct (mutated_inv _ _ _ Hm) as (a1 & a2 & E1 & E2 & E3).
  destruct (turboBlock_spec _ _ _ E1) as (F1 & T1 & T2 & M1).
  destruct (debugBlock_spec _ _ _ E2) as (F2 & D2).
  destruct (multiBlock_spec _ _ _ E3) as (F3 & N3).
  destruct (in_targets this) as (I1 & I2 & I3).
  assert (Hfalse : forall b : bool, b = true -> b = false -> False)
    by (intros b -> [=]).
  split; [| split; [| split; [| split; [| split; [| split]]]]].
  - intros q Hq. rewrite F3, F2, F1; [done | | |].
    + intros Hf. destruct (I1 Hf). split; by apply Hq.
    + intros Hf. by apply Hq, I2.
    + intros Hf. by apply Hq, I3.
  - intros Hf. split; intros Hmap.
    + rewrite F3, F2 by (intros _; reflexivity). by apply T1.
    + rewrite F3, F2 by (intros _; reflexivity). by apply T2.
  - intros Hf. split; rewrite F3, F2, F1; try done; try (intros _; reflexivity);
      intros Hf'; rewrite Hf in Hf'; discriminate Hf'.
  - intros Hd Hmap. rewrite F3 by (intros _; reflexivity). by apply D2, M1.
  - intros Hd. rewrite F3, F2, F1; try done; try (intros _; split; reflexivity);
      try (intros _; reflexivity).
    intros Hd'. exfalso. by apply (Hfalse _ Hd' Hd).
  - intros Hn Hmap. apply N3; [done |].
    apply (is_mapping_at_frame monitor a1).
    + apply F2. intros _. reflexivity.
    + apply (is_mapping_at_frame monitor application); [| done].
      apply F1. intros _. split; reflexivity.
  - intros Hn. rewrite F3, F2, F1; try done; try (intros _; split; reflexivity);
      try (intros _; reflexivity).
    intros Hn'. exfalso. by apply (Hfalse _ Hn' Hn).
Qed.

(** C9. The turbo, debug and multi-node blocks are each guarded by their
    own flag alone: for every combination of the three flags, a block whose
    flag is on leaves its template at its path (in the mapping that holds
    it), a block whose flag is off leaves its path as it was, and whatever
    is read along a path that leads to no assigned path and from none is
    what the loaded document had.  The result is written back through
    [yaml.dump] with a line width of 256.  On a document in which the
    holders of the assigned paths are mappings the blocks do go through. *)
Theorem mirror_blocks_are_independent_and_keep_the_rest
    (this : InitState) (application : JsValue) :
  (well_shaped this application ->
   exists application', mutated this application = Normal application')
  /\ forall application',
  mutated this application = Normal application' ->
  (forall q, (forall t, t ∈ targets this -> diverge q t = true) ->
             get_path q application' = get_path q application)
  /\ (fullMode (cliOptions this) = false ->
        (is_mapping_at importer application ->
           get_path importer_dataPath application'
           = Normal (dataPath turboNodeProperties))
        /\ (is_mapping_at downloader application ->
              get_path downloader_sources application'
              = Normal (sources turboNodeProperties)))
  /\ (fullMode (cliOptions this) = true ->
        get_path importer_dataPath application' = get_path importer_dataPath application
        /\ get_path downloader_sources application'
           = get_path downloader_sources application)
  /\ (enableDebug (cliOptions this) = true -> is_mapping_at downloader application ->
        get_path downloader_local application' = Normal local)
  /\ (enableDebug (cliOptions this) = false ->
        get_path downloader_local application' = get_path downloader_local application)
  /\ (multiNode (cliOptions this) = true -> is_mapping_at monitor application ->
        get_path monitor_nodes application'
        = Normal multiNodeProperties)
  /\ (multiNode (cliOptions this) = false ->
        get_path monitor_nodes application' = get_path monitor_nodes application)
  /\ (forall w content text,
        files (fs w) !! applicationPath this = Some content ->
        yaml_load content = Some application ->
        yaml_dump 256 application' = Some text ->
        writable (applicationPath this) = true ->
        exists w',
          configureMirrorNodeProperties this w
          = (Normal tt, w')
          /\ files (fs w') = <[applicationPath this := text]> (files (fs w))).
Proof.
  split; [apply mutated_total |].
  intros application' Hm. destruct (mutated_spec _ _ _ Hm) as (S1 & S2 & S3 & S4 & S5 & S6 & S7).
  repeat (split; [assumption |]).
  intros w content text Hfile Hload Hdump Hw.
  rewrite configureMirrorNodeProperties_eq. cbn zeta.
  rewrite Hfile, Hload, Hm, Hdump, Hw. eexists. split; [reflexivity |].
  unfold relayed. by destruct (multiNode (cliOptions this)).
Qed.

(** What a run of [configureMirrorNodeProperties] that returns has done. *)
Lemma configureMirrorNodeProperties_inv (this : InitState) (w w' : World) :
  configureMirrorNodeProperties this w = (Normal tt, w') ->
  exists content application application' text,
    files (fs w) !! applicationPath this = Some content
    /\ yaml_load content = Some application
    /\ mutated this application = Normal application'
    /\ yaml_dump 256 application' = Some text
    /\ writable (applicationPath this) = true
    /\ fs w' = written (applicationPath this) text (fs w)
    /\ env w' = env (relayed this w)
    /\ events w' = events w
    /\ calls w' = (calls w ++ [ReadFileSync (applicationPath this);
                                WriteFileSync (applicationPath this) text])%list.
Proof.
  rewrite configureMirrorNodeProperties_eq. cbn zeta.
  destruct (files (fs w) !! applicationPath this) as [content|] eqn:Hf; [| discriminate].
  destruct (yaml_load content) as [application|] eqn:Hl; [| discriminate].
  destruct (mutated this application) as [application'|] eqn:Hm; [| discriminate].
  destruct (yaml_dump 256 application') as [text|] eqn:Hd; [| discriminate].
  destruct (writable (applicationPath this)) eqn:Hw; [| discriminate].
  intros [= <-]. exists content, application, application', text.
  unfold relayed. destruct (multiNode (cliOptions this));
    repeat split; try assumption; try reflexivity; cbn; by rewrite <- app_assoc.
Qed.

Lemma configureMirrorNodeProperties_env (this : InitState) :
  multiNode (cliOptions this) = false ->
  preserves (unchanged env) (configureMirrorNodeProperties this).
Proof.
  intros Hn w out w'. rewrite configureMirrorNodeProperties_eq. cbn zeta.
  unfold relayed. rewrite Hn.
  repeat match goal with
    | |- context [match ?x with _ => _ end] => destruct x
    end; intros [= <- <-]; reflexivity.
Qed.

Lemma prop_set_id {V} (k : string) (x : V) (ms : list (string * V)) :
  prop_get k ms = Some x -> prop_set k x ms = ms.
Proof.
  induction ms as [|[k' v] ms IH]; [discriminate |]. cbn [prop_set prop_get].
  destruct (decide (k = k')) as [-> | Hne]; [by intros [= ->] |].
  intros E. by rewrite IH.
Qed.

(** An assignment whose holder is a sequence is lost: the document is
    what it was. *)
Lemma assign_sequence (holder : list string) (k : string) (x v v' : JsValue) xs :
  assign (holder ++ [k]) x v = Normal v' ->
  get_path holder v = Normal (JArray xs) ->
  v' = v.
Proof.
  revert v v'. induction holder as [|h holder IH]; intros v v' E G.
  - cbn in *. injection G as ->. cbn in E. by injection E.
  - cbn [app] in E. destruct (holder ++ [k])%list as [|k2 rest] eqn:Hrest;
      [by destruct holder |].
    apply assign_inv in E as (ms0 & child & child' & -> & Hc & Ea & ->).
    cbn [get_path getProp] in G. rewrite Hc in G.
    rewrite (IH child child' Ea G). f_equal. apply prop_set_id.
    destruct (prop_get h ms0) as [c|]; cbn [default id] in Hc; [by subst |].
    subst child. destruct holder; discriminate G.
Qed.

Lemma mutated_sequence (this : InitState) (application application' : JsValue) xs :
  mutated this application = Normal application' ->
  get_path monitor application = Normal (JArray xs) ->
  get_path monitor application' = Normal (JArray xs).
Proof.
  intros Hm G.
  destruct (mutated_inv _ _ _ Hm) as (a1 & a2 & E1 & E2 & E3).
  destruct (turboBlock_spec _ _ _ E1) as (F1 & _).
  destruct (debugBlock_spec _ _ _ E2) as (F2 & _).
  assert (G2 : get_path monitor a2 = Normal (JArray xs)).
  { rewrite F2 by (intros _; reflexivity).
    rewrite F1 by (intros _; split; reflexivity). exact G. }
  unfold multiBlock in E3. destruct (multiNode (cliOptions this)).
  - by rewrite (assign_sequence monitor "nodes" _ _ _ _ E3 G2).
  - by injection E3 as <-.
Qed.

(** C7 (amended). With multi-node mode on, when the application document
    is there and loads, the holders of the paths that the enabled blocks
    assign are mappings (hedera.mirror.monitor among them), and the result
    can be dumped and written, the mirror-node step returns, the document
    it writes back has the multi-node template as its monitor node list,
    and RELAY_HEDERA_NETWORK is the fixed map of the four endpoints
    network-node:50211 to network-node-3:50211 to the four accounts 0.0.3
    to 0.0.6.  Every run of the step that returns with multi-node mode on
    has set the variable to that map; the document it has written has the
    template as its node list when hedera.mirror.monitor was loaded as a
    mapping, and has the monitor section as it was loaded, the node list
    not overwritten, when it was loaded as a sequence.  With multi-node
    mode off the environment is left as it was in every run, and the
    monitor section that is written back is the one that was loaded. *)
Theorem multi_node_sets_monitor_nodes_and_relay_network (this : InitState) (w : World) :
  (multiNode (cliOptions this) = true ->
   forall content application,
     files (fs w) !! applicationPath this = Some content ->
     yaml_load content = Some application ->
     well_shaped this application ->
     exists application',
       mutated this application = Normal application'
       /\ get_path monitor_nodes application' = Normal multiNodeProperties
       /\ forall text,
            yaml_dump 256 application' = Some text ->
            writable (applicationPath this) = true ->
            exists w',
              configureMirrorNodeProperties this w = (Normal tt, w')
              /\ files (fs w') !! applicationPath this = Some text
              /\ env w' !! "RELAY_HEDERA_NETWORK"
                 = Some ("{" +:+ DQ +:+ "network-node:50211" +:+ DQ +:+ ":" +:+ DQ +:+ "0.0.3" +:+ DQ
             +:+ "," +:+ DQ +:+ "network-node-1:50211" +:+ DQ +:+ ":" +:+ DQ +:+ "0.0.4" +:+ DQ
             +:+ "," +:+ DQ +:+ "network-node-2:50211" +:+ DQ +:+ ":" +:+ DQ +:+ "0.0.5" +:+ DQ
             +:+ "," +:+ DQ +:+ "network-node-3:50211" +:+ DQ +:+ ":" +:+ DQ +:+ "0.0.6" +:+ DQ
             +:+ "}"))
  /\ forall out w',
  configureMirrorNodeProperties this w = (out, w') ->
  (out = Normal tt ->
     exists content application application' text,
       files (fs w) !! applicationPath this = Some content
       /\ yaml_load content = Some application
       /\ mutated this application = Normal application'
       /\ yaml_dump 256 application' = Some text
       /\ files (fs w') !! applicationPath this = Some text
       /\ (multiNode (cliOptions this) = true ->
             (is_mapping_at monitor application ->
                get_path monitor_nodes application' = Normal multiNodeProperties)
             /\ (forall xs, get_path monitor application = Normal (JArray xs) ->
                            get_path monitor application' = Normal (JArray xs))
             /\ env w'
                = <["RELAY_HEDERA_NETWORK" := ("{" +:+ DQ +:+ "network-node:50211" +:+ DQ +:+ ":" +:+ DQ +:+ "0.0.3" +:+ DQ
             +:+ "," +:+ DQ +:+ "network-node-1:50211" +:+ DQ +:+ ":" +:+ DQ +:+ "0.0.4" +:+ DQ
             +:+ "," +:+ DQ +:+ "network-node-2:50211" +:+ DQ +:+ ":" +:+ DQ +:+ "0.0.5" +:+ DQ
             +:+ "," +:+ DQ +:+ "network-node-3:50211" +:+ DQ +:+ ":" +:+ DQ +:+ "0.0.6" +:+ DQ
             +:+ "}")]> (env w))
       /\ (multiNode (cliOptions this) = false ->
             get_path monitor application' = get_path monitor application))
  /\ (multiNode (cliOptions this) = false -> env w' = env w).
Proof.
  split.
  { intros Hn content application Hf Hl Hshape.
    destruct (mutated_total _ _ Hshape) as [application' Hm].
    exists application'. split; [exact Hm |].
    split; [by apply (mutated_spec _ _ _ Hm), Hshape |].
    intros text Hd Hw.
    rewrite configureMirrorNodeProperties_eq. cbn zeta.
    rewrite Hf, Hl, Hm, Hd, Hw. eexists. split; [reflexivity |].
    unfold relayed. rewrite Hn. cbn. split; apply lookup_insert_eq. }
  intros out w' Hrun. split.
  - intros ->.
    destruct (configureMirrorNodeProperties_inv _ _ _ Hrun)
      as (content & application & application' & text & Hf & Hl & Hm & Hd & Hw
          & Hfs & Henv & _).
    exists content, application, application', text.
    repeat (split; [done |]). split; [| split].
    + rewrite Hfs. cbn. apply lookup_insert_eq.
    + intros Hn. split; [| split].
      * by apply (mutated_spec _ _ _ Hm).
      * intros xs. by apply (mutated_sequence this application).
      * rewrite Henv. unfold relayed. by rewrite Hn.
    + intros Hn.
      apply (mutated_spec _ _ _ Hm).
      intros t Ht. unfold targets in Ht. rewrite Hn in Ht.
      destruct (fullMode (cliOptions this)), (enableDebug (cliOptions this));
        cbn in Ht; rewrite ?elem_of_cons in Ht;
        repeat (destruct Ht as [-> | Ht]; [reflexivity |]);
        by apply elem_of_nil in Ht.
  - intros Hn. by apply (configureMirrorNodeProperties_env this Hn w out w').
Qed.

(** **** The bootstrap properties *)

Lemma append_assoc (a b c : string) : (a +:+ b) +:+ c = a +:+ (b +:+ c).
Proof.
  induction a as [|ch a IH]; [reflexivity |].
  change (String ch ((a +:+ b) +:+ c) = String ch (a +:+ b +:+ c)). by f_equal.
Qed.

Lemma append_empty_l (a : string) : EmptyString +:+ a = a.
Proof. reflexivity. Qed.

Lemma append_empty_r (a : string) : a +:+ EmptyString = a.
Proof.
  induction a as [|ch a IH]; [reflexivity |].
  change (String ch (a +:+ EmptyString) = String ch a). by f_equal.
Qed.

Lemma foldl_propertyLine (acc : string) (l : list Configuration) :
  foldl (fun acc property => acc +:+ propertyLine property) acc l
  = acc +:+ propertyLines l.
Proof.
  revert acc. induction l as [|property l IH]; intros acc; cbn [foldl propertyLines].
  - by rewrite append_empty_r.
  - by rewrite IH, append_assoc.
Qed.

Lemma propertyLines_app (l1 l2 : list Configuration) :
  propertyLines (l1 ++ l2) = propertyLines l1 +:+ propertyLines l2.
Proof.
  induction l1 as [|property l1 IH]; [reflexivity |].
  cbn [app propertyLines]. by rewrite IH, append_assoc.
Qed.

Lemma appendProperties_run (acc : string) (l : list Configuration) (w : World) :
  appendProperties acc l w = (Normal (acc +:+ propertyLines l), foldl traceProperty w l).
Proof.
  revert acc w. induction l as [|property l IH]; intros acc w;
    cbn [appendProperties foldl propertyLines].
  - by rewrite append_empty_r.
  - unfold logger. rewrite bind_modify, IH, append_assoc. reflexivity.
Qed.

Lemma traceProperty_frame (l : list Configuration) (w : World) :
  env (foldl traceProperty w l) = env w /\ fs (foldl traceProperty w l) = fs w
  /\ events (foldl traceProperty w l) = events w
  /\ calls (foldl traceProperty w l) = calls w.
Proof.
  revert w. induction l as [|property l IH]; intros w; [done |].
  cbn [foldl]. by destruct (IH (traceProperty w property)) as (-> & -> & -> & ->).
Qed.

Lemma configureNodeProperties_some (this : InitState) (overrides : list Configuration)
    (w : World) :
  exists w1,
    env w1 = env w /\ fs w1 = fs w /\ events w1 = events w
    /\ calls w1 = (calls w ++ [WriteFileSync (bootstrapPath this) (bootstrapText overrides)])%list
    /\ configureNodeProperties this (Some overrides) w
       = if writable (bootstrapPath this)
         then (Normal tt,
               with_log
                 (mkLogEntry LInfo
                    "Needed bootsrap properties were set for this configuration." stateName)
                 (with_fs (written (bootstrapPath this) (bootstrapText overrides) (fs w1)) w1))
         else (Throw (FileSystemError (bootstrapPath this)), w1).
Proof.
  unfold configureNodeProperties, bootstrapText. fold (bootstrapPath this).
  rewrite run_bind, foldl_propertyLine, appendProperties_run.
  rewrite append_empty_l, <- propertyLines_app.
  destruct (traceProperty_frame overrides w) as (E & F & V & C).
  eexists (with_call _ (foldl traceProperty w overrides)).
  repeat (split; [cbn; by rewrite ?E, ?F, ?V, ?C |]).
  unfold writeFileSync, logger. rewrite bind_bind, bind_modify.
  destruct (writable (bootstrapPath this)); reflexivity.
Qed.

Lemma configureNodeProperties_none (this : InitState) (w : World) :
  configureNodeProperties this None w
  = (Normal tt,
     with_log (mkLogEntry LTrace "No additional node configuration needed." stateName) w).
Proof. reflexivity. Qed.

(** **** A run that goes through *)

Lemma no_conflict (ports : list Z) :
  (forall port, port ∈ NECESSARY_PORTS -> port ∉ portsInUse) ->
  filter (fun port => busy port && necessary port = true) ports = [].
Proof.
  intros Hfree. destruct (filter _ ports) as [|q l] eqn:Hfilter; [done |]. exfalso.
  assert (Hq : q ∈ filter (fun port => busy port && necessary port = true) ports)
    by (rewrite Hfilter; apply elem_of_cons; by left).
  apply list_elem_of_filter in Hq as [Hq _]. apply conflict_spec in Hq as [Hq1 Hq2].
  by apply (Hfree q).
Qed.

Lemma prepareWorkDirectory_ok (this : InitState) (w : World) (f1 f2 : FileSystem) :
  createEphemeralDirectories (workDir (cliOptions this)) (fs w) = (Normal tt, f1) ->
  copyPaths (configFiles this) f1 = (Normal tt, f2) ->
  exists w',
    prepareWorkDirectory this w = (Normal tt, w')
    /\ env w' = env w /\ fs w' = f2 /\ events w' = events w
    /\ calls w' = (calls w ++ [CreateEphemeralDirectories (workDir (cliOptions this));
                                CopyPaths (configFiles this)])%list.
Proof.
  intros Hc Hp.
  unfold prepareWorkDirectory, FileSystemUtils_createEphemeralDirectories,
    FileSystemUtils_copyPaths, fsutil, logger.
  rewrite bind_modify, bind_bind, bind_modify, run_bind.
  unfold attempt at 1. cbn [fs with_call with_log]. rewrite Hc. cbn [fst snd].
  rewrite bind_modify. unfold attempt. cbn [fs with_call with_fs]. rewrite Hp.
  eexists. split; [reflexivity |]. cbn. by rewrite <- app_assoc.
Qed.

Lemma materialize_ok (this : InitState) (configurationData : NetworkConfiguration)
    (w : World) (f1 f2 : FileSystem) (content text : string)
    (application application' : JsValue) :
  observer this = true ->
  (forall port, port ∈ NECESSARY_PORTS -> port ∉ portsInUse) ->
  createEphemeralDirectories (workDir (cliOptions this)) (fs w) = (Normal tt, f1) ->
  copyPaths (configFiles this) f1 = (Normal tt, f2) ->
  (is_Some (nodeConfiguration configurationData) ->
   writable (bootstrapPath this) = true) ->
  files (bootstrapped this configurationData f2) !! applicationPath this = Some content ->
  yaml_load content = Some application ->
  mutated this application = Normal application' ->
  yaml_dump 256 application' = Some text ->
  writable (applicationPath this) = true ->
  exists w',
    materialize this configurationData w = (Normal tt, w')
    /\ events w' = (events w ++ [Finish])%list
    /\ calls w' =
         (calls w
          ++ [IsPortInUse (NECESSARY_PORTS ++ OPTIONAL_PORTS);
              CreateEphemeralDirectories (workDir (cliOptions this));
              CopyPaths (configFiles this)]
          ++ bootstrapWrites this configurationData
          ++ [ReadFileSync (applicationPath this);
              WriteFileSync (applicationPath this) text])%list
    /\ fs w' = written (applicationPath this) text (bootstrapped this configurationData f2)
    /\ env w' = (if multiNode (cliOptions this)
                 then <["RELAY_HEDERA_NETWORK" := RELAY_HEDERA_NETWORK_VALUE]>
                 else id) (configured this configurationData (env w)).
Proof.
  intros Hobs Hfree Hc Hp Hwb Hfile Hload Hm Hdump Hwa.
  unfold materialize.
  rewrite run_bind, isPortInUse_run, (no_conflict _ Hfree).
  remember (NECESSARY_PORTS ++ OPTIONAL_PORTS)%list as ports eqn:Hports.
  destruct (advise_frame ports (with_call (IsPortInUse ports) w)) as (E0 & F0 & V0 & C0).
  unfold logger at 1. rewrite bind_modify, run_bind.
  edestruct (prepareWorkDirectory_ok this) as (w2 & -> & E2 & F2 & V2 & C2);
    [cbn [fs with_log]; rewrite F0; exact Hc | exact Hp |].
  rewrite run_bind.
  edestruct (configureEnvVariables_some this) as (w3 & -> & E3 & F3 & V3 & C3).
  rewrite run_bind.
  assert (exists w4,
    configureNodeProperties this
      (properties <$> nodeConfiguration configurationData) w3 = (Normal tt, w4)
    /\ env w4 = env w3 /\ events w4 = events w3
    /\ fs w4 = bootstrapped this configurationData (fs w3)
    /\ calls w4 = (calls w3 ++ bootstrapWrites this configurationData)%list)
    as (w4 & -> & E4 & V4 & F4 & C4).
  { unfold bootstrapped, bootstrapWrites.
    destruct (nodeConfiguration configurationData) as [node|]; cbn [fmap option_fmap option_map].
    - destruct (configureNodeProperties_some this (properties node) w3)
        as (w3' & E' & F' & V' & C' & ->).
      rewrite Hwb by (by eexists). eexists. split; [reflexivity |].
      cbn. by rewrite E', F', V', C'.
    - rewrite configureNodeProperties_none. eexists. split; [reflexivity |].
      cbn. by rewrite app_nil_r. }
  rewrite run_bind, configureMirrorNodeProperties_eq. cbn zeta.
  rewrite F4, F3, F2, Hfile, Hload, Hm, Hdump, Hwa.
  unfold update. rewrite Hobs. eexists. split; [reflexivity |].
  unfold configured, relayed.
  destruct (multiNode (cliOptions this)); cbn;
    rewrite ?F4, ?F3, ?F2, ?E4, ?E3, ?E2, ?V4, ?V3, ?V2, ?C4, ?C3, ?C2; cbn;
    rewrite ?E0, ?F0, ?V0, ?C0; cbn; rewrite <- ?app_assoc; done.
Qed.

(** **** The environment of a run that has finished *)

Lemma prepareWorkDirectory_events this : preserves (unchanged events) (prepareWorkDirectory this).
Proof. frame. Qed.

Lemma prepareWorkDirectory_env this : preserves (unchanged env) (prepareWorkDirectory this).
Proof. frame. Qed.

Lemma configureNodeProperties_events this nodeConfiguration :
  preserves (unchanged events)
    (configureNodeProperties this nodeConfiguration).
Proof. frame. Qed.

Lemma configureNodeProperties_env this nodeConfiguration :
  preserves (unchanged env)
    (configureNodeProperties this nodeConfiguration).
Proof. frame. Qed.

Lemma configureMirrorNodeProperties_events this :
  preserves (unchanged events)
    (configureMirrorNodeProperties this).
Proof. frame. Qed.

(** A run of [onStart] that has delivered Finish has resolved the network
    and has left the environment that the two exporting steps build. *)
Lemma onStart_finish_env (this : InitState) (e : gmap string string) (f : FileSystem)
    (out : Completion unit) (w' : World) :
  onStart this (initial e f) = (out, w') ->
  Finish ∈ events w' ->
  exists configurationData,
    entry_for (network (cliOptions this)) = Some configurationData
    /\ env w' = relayedEnv this (configured this configurationData e).
Proof.
  intros Hrun Hfin. rewrite onStart_eq in Hrun.
  assert (Hno : forall w : World, w' = w -> events w = [] -> False).
  { intros w -> Hev. rewrite Hev in Hfin. by apply elem_of_nil in Hfin. }
  destruct (entry_for (network (cliOptions this))) as [configurationData|];
    [| exfalso; injection Hrun as _ <-; by apply (Hno _ eq_refl)].
  exists configurationData. split; [done |].
  destruct (ready this).
  2:{ exfalso. unfold update in Hrun. destruct (observer this).
      - injection Hrun as _ <-. cbn in Hfin.
        apply list_elem_of_singleton in Hfin. discriminate Hfin.
      - injection Hrun as _ <-. by apply (Hno _ eq_refl). }
  unfold materialize in Hrun. rewrite run_bind, isPortInUse_run in Hrun.
  remember (NECESSARY_PORTS ++ OPTIONAL_PORTS)%list as ports eqn:Hports.
  destruct (advise_frame ports (with_call (IsPortInUse ports) (probed this (initial e f))))
    as (E0 & F0 & V0 & C0).
  destruct (filter _ ports);
    [| exfalso; injection Hrun as _ <-; apply (Hno _ eq_refl); by rewrite V0].
  unfold logger at 1 in Hrun. rewrite bind_modify, run_bind in Hrun.
  destruct (prepareWorkDirectory this _) as [[[]|err] w2] eqn:H2;
    pose proof (prepareWorkDirectory_events _ _ _ _ H2) as V2;
    pose proof (prepareWorkDirectory_env _ _ _ _ H2) as E2;
    unfold unchanged in V2, E2; cbn [events env with_log] in V2, E2;
    [| exfalso; injection Hrun as _ <-; apply (Hno _ eq_refl); by rewrite V2, V0].
  rewrite run_bind in Hrun.
  edestruct (configureEnvVariables_some this) as (w3 & H3 & E3 & F3 & V3 & C3).
  rewrite H3 in Hrun. clear H3. rewrite run_bind in Hrun.
  destruct (configureNodeProperties this _ w3)
    as [[[]|err] w4] eqn:H4;
    pose proof (configureNodeProperties_events _ _ _ _ _ H4) as V4;
    pose proof (configureNodeProperties_env _ _ _ _ _ H4) as E4;
    unfold unchanged in V4, E4;
    [| exfalso; injection Hrun as _ <-; apply (Hno _ eq_refl);
       by rewrite V4, V3, V2, V0].
  rewrite run_bind in Hrun.
  destruct (configureMirrorNodeProperties this w4)
    as [[[]|err] w5] eqn:H5;
    pose proof (configureMirrorNodeProperties_events _ _ _ _ H5) as V5;
    unfold unchanged in V5;
    [| exfalso; injection Hrun as _ <-; apply (Hno _ eq_refl);
       by rewrite V5, V4, V3, V2, V0].
  apply configureMirrorNodeProperties_inv in H5
    as (_ & _ & _ & _ & _ & _ & _ & _ & _ & _ & E5 & _).
  unfold update in Hrun. destruct (observer this);
    [| exfalso; injection Hrun as _ <-; apply (Hno _ eq_refl);
       by rewrite V5, V4, V3, V2, V0].
  injection Hrun as _ <-. cbn [env with_event]. rewrite E5.
  unfold relayed, relayedEnv, configured.
  destruct (multiNode (cliOptions this)); cbn [env with_env];
    by rewrite E4, E3, E2, E0.
Qed.

Lemma rateLimited_forced (this : InitState) (e : gmap string string) :
  limits (cliOptions this) = false -> rateLimitsDisabled (rateLimited this e).
Proof.
  intros Hl. unfold rateLimited, rateLimitsDisabled. rewrite Hl.
  repeat split; by simplify_map_eq.
Qed.

Lemma relayedEnv_rateLimits (this : InitState) (e : gmap string string) :
  rateLimitsDisabled e -> rateLimitsDisabled (relayedEnv this e).
Proof.
  unfold relayedEnv, rateLimitsDisabled. intros (E1 & E2 & E3).
  destruct (multiNode (cliOptions this)); [| done].
  repeat split; by simplify_map_eq.
Qed.

(** C4. With limits disabled, whatever the catalog holds, the
    environment-variable step of [onStart] returns with the three
    rate-limit variables at their disabling values, and every run of
    [onStart] that finishes ends with them so. *)
Theorem limits_off_forces_rate_limit_variables (this : InitState) :
  limits (cliOptions this) = false ->
  (forall (configurationData : NetworkConfiguration) (w : World),
     exists w',
       configureEnvVariables this (imageTagConfiguration configurationData)
         (Some (default [] (envConfiguration configurationData)
                ++ workDirConfiguration this)%list) w = (Normal tt, w')
       /\ rateLimitsDisabled (env w'))
  /\ (forall e f out w',
        onStart this (initial e f) = (out, w') ->
        Finish ∈ events w' -> rateLimitsDisabled (env w')).
Proof.
  intros Hl. split.
  - intros configurationData w.
    edestruct (configureEnvVariables_some this) as (w' & Hrun & E & _).
    exists w'. split; [exact Hrun |]. rewrite E. by apply rateLimited_forced.
  - intros e f out w' Hrun Hfin.
    destruct (onStart_finish_env _ _ _ _ _ Hrun Hfin) as (configurationData & _ & ->).
    apply relayedEnv_rateLimits. unfold configured. by apply rateLimited_forced.
Qed.

Lemma exported_app (l1 l2 : list Configuration) (e : gmap string string) :
  exported (l1 ++ l2) e = exported l2 (exported l1 e).
Proof. unfold exported. apply foldl_app. Qed.



Lemma exported_other (l : list Configuration) (e : gmap string string) (k : string) :
  (forall variable, variable ∈ l -> key variable <> k) -> exported l e !! k = e !! k.
Proof.
  revert e. induction l as [|variable l IH]; intros e Hk; [done |].
  cbn [exported foldl]. change (exported l (<[key variable := value variable]> e) !! k = e !! k).
  rewrite IH by (intros v Hv; apply Hk, elem_of_cons; by right).
  apply lookup_insert_ne, Hk, elem_of_cons. by left.
Qed.

(** C10. Called with an undefined environment-variable configuration,
    [configureEnvVariables] exports the image tags and returns: the
    environment is the one the image tags give, so a rate-limit variable
    that no image tag names keeps what it had, also with limits disabled;
    called with a list, and limits disabled, it forces the three
    variables. *)
Theorem undefined_env_configuration_skips_rate_limit_override
    (this : InitState) (imageTagConfiguration : list Configuration) (w : World) :
  (exists w',
     configureEnvVariables this imageTagConfiguration None w = (Normal tt, w')
     /\ env w' = exported imageTagConfiguration (env w)
     /\ (forall k, (forall variable, variable ∈ imageTagConfiguration -> key variable <> k) ->
                   env w' !! k = env w !! k))
  /\ (forall envConfiguration,
        exists w',
          configureEnvVariables this imageTagConfiguration (Some envConfiguration) w
          = (Normal tt, w')
          /\ (limits (cliOptions this) = false -> rateLimitsDisabled (env w'))).
Proof.
  split.
  - destruct (configureEnvVariables_none this imageTagConfiguration w)
      as (w' & Hrun & E & _).
    exists w'. split; [exact Hrun |]. split; [exact E |].
    intros k Hk. rewrite E. by apply exported_other.
  - intros envConfiguration.
    edestruct (configureEnvVariables_some this) as (w' & Hrun & E & _).
    exists w'. split; [exact Hrun |]. intros Hl. rewrite E. by apply rateLimited_forced.
Qed.

(** C5 (amended). Given a list of node properties, possibly empty, the
    bootstrap step replaces the whole content of bootstrap.properties,
    whatever it was, by the lines of the base template in order followed by
    the lines of the list in order, duplicates kept, and touches no other
    file; given no list, it writes nothing and the file tree stays as it
    was. *)
Theorem bootstrap_properties_overwritten_when_overrides_present
    (this : InitState) (w : World) :
  (forall overrides,
     writable (bootstrapPath this) = true ->
     exists w',
       configureNodeProperties this (Some overrides) w
       = (Normal tt, w')
       /\ files (fs w')
          = <[bootstrapPath this :=
                propertyLines bootsrapProperties
                +:+ propertyLines overrides]> (files (fs w))
       /\ dirs (fs w') = dirs (fs w))
  /\ (exists w',
        configureNodeProperties this None w = (Normal tt, w')
        /\ fs w' = fs w /\ calls w' = calls w).
Proof.
  split.
  - intros overrides Hw.
    destruct (configureNodeProperties_some this overrides w)
      as (w1 & E & F & V & C & ->).
    rewrite Hw. eexists. split; [reflexivity |].
    cbn. rewrite F. unfold bootstrapText. by rewrite propertyLines_app.
  - rewrite configureNodeProperties_none. eexists. split; [reflexivity |]. done.
Qed.

Lemma configFiles_distinct (this : InitState) :
  let s1 := join [__dirname; "../../compose-network/network-node/data/config/"] in
  let s2 := join [__dirname; APPLICATION_YML_RELATIVE_PATH] in
  let s3 := join [__dirname; "../../src/services/record-parser"] in
  NoDup [s1; s2; s3] ->
  configFiles this =
  [ (s1, workDir (cliOptions this) +:+ "/compose-network/network-node/data/config");
    (s2, workDir (cliOptions this) +:+ "/compose-network/mirror-node/application.yml");
    (s3, workDir (cliOptions this) +:+ "/services/record-parser") ].
Proof.
  cbn zeta. intros Hnd. unfold configFiles.
  apply NoDup_cons in Hnd as [H1 Hnd]. apply NoDup_cons in Hnd as [H2 _].
  rewrite !elem_of_cons, elem_of_nil in H1. rewrite !elem_of_cons, elem_of_nil in H2.
  cbn [prop_set].
  rewrite (decide_False (P := _ = _)) by (intros E; apply H1; by left).
  cbn [prop_set].
  rewrite (decide_False (P := _ = _)) by (intros E; apply H1; right; by left).
  rewrite (decide_False (P := _ = _)) by (intros E; apply H2; by left).
  reflexivity.
Qed.

(** C8 (amended). When an observer has subscribed, the network is
    recognized, the three readiness checks pass, no necessary port is
    taken, every file operation succeeds
    (the directories are created, the paths copied, the files written, the
    application document read, parsed and dumped) and the assignments
    that the flags select go through on the loaded application document
    (none raises a TypeError for want of an object to assign on),
    [onStart] returns after the whole sequence: the directories
    are created, the path pairs are copied (three pairs when the three
    sources differ), the properties file is written when the catalog entry
    has a node-property list, the application document is read and
    rewritten, and the observer has received Finish, once, and nothing
    else. *)
Theorem bring_up_goes_through_and_finishes_once
    (this : InitState) (configurationData : NetworkConfiguration)
    (e : gmap string string) (f f1 f2 : FileSystem) (content text : string)
    (application application' : JsValue) :
  observer this = true ->
  prop_get (network (cliOptions this)) networks = Some configurationData ->
  ready this = true ->
  (forall port, port ∈ NECESSARY_PORTS -> port ∉ portsInUse) ->
  createEphemeralDirectories (workDir (cliOptions this)) f = (Normal tt, f1) ->
  copyPaths (configFiles this) f1 = (Normal tt, f2) ->
  (is_Some (nodeConfiguration configurationData) ->
   writable (bootstrapPath this) = true) ->
  files (bootstrapped this configurationData f2) !! applicationPath this = Some content ->
  yaml_load content = Some application ->
  mutated this application = Normal application' ->
  yaml_dump 256 application' = Some text ->
  writable (applicationPath this) = true ->
  exists w',
    onStart this (initial e f) = (Normal tt, w')
    /\ events w' = [Finish]
    /\ calls w' =
         ([ GetSelectedConfigurationData (network (cliOptions this));
            IsCorrectDockerComposeVersion true; CheckDocker true;
            CheckDockerResources (multiNode (cliOptions this)) true;
            IsPortInUse (NECESSARY_PORTS ++ OPTIONAL_PORTS);
            CreateEphemeralDirectories (workDir (cliOptions this));
            CopyPaths (configFiles this) ]
          ++ bootstrapWrites this configurationData
          ++ [ ReadFileSync (applicationPath this);
               WriteFileSync (applicationPath this) text ])%list
    /\ fs w' = written (applicationPath this) text (bootstrapped this configurationData f2)
    /\ env w' = relayedEnv this (configured this configurationData e)
    /\ (let s1 := join [__dirname; "../../compose-network/network-node/data/config/"] in
        let s2 := join [__dirname; APPLICATION_YML_RELATIVE_PATH] in
        let s3 := join [__dirname; "../../src/services/record-parser"] in
        NoDup [s1; s2; s3] ->
        configFiles this =
        [ (s1, workDir (cliOptions this) +:+ "/compose-network/network-node/data/config");
          (s2, workDir (cliOptions this) +:+ "/compose-network/mirror-node/application.yml");
          (s3, workDir (cliOptions this) +:+ "/services/record-parser") ]).
Proof.
  intros Hobs Hcat Hready Hfree Hc Hp Hwb Hfile Hload Hm Hdump Hwa.
  rewrite onStart_eq, (entry_for_known _ _ Hcat), Hready.
  destruct (materialize_ok this configurationData (probed this (initial e f))
              f1 f2 content text application application')
    as (w' & Hrun & V & C & F & E); try assumption.
  exists w'. split; [exact Hrun |]. rewrite V, C, F, E.
  unfold ready in Hready.
  apply andb_prop in Hready as [Hready H3]. apply andb_prop in Hready as [H1 H2].
  repeat split; [| | apply configFiles_distinct].
  - cbn. by rewrite H1, H2, H3.
  - unfold relayedEnv. by destruct (multiNode (cliOptions this)).
Qed.

End Properties.

(** * The statements on the example *)

Section Witnesses.
Import Example.

(** A run on the machine whose Docker has too few resources. *)
Lemma readiness_failure_witness :
  let r := run starved (options "local" true false false false) in
  calls r.2 = [ GetSelectedConfigurationData "local"; IsCorrectDockerComposeVersion true;
                CheckDocker true; CheckDockerResources false false ]
  /\ r.1 = Normal tt
  /\ events r.2 = [UnresolvableError]
  /\ fs r.2 = disk
  /\ env r.2 = ∅.
Proof.
  intros r.
  apply (readiness_failure_is_a_no_op (P := platform) (H := starved)
           (originalNodeConfiguration := template) (catalog := catalog)
           (state (options "local" true false false false)) ∅ disk r.1 r.2).
  - reflexivity.
  - apply surjective_pairing.
  - exists (CheckDockerResources false false). split; [| reflexivity].
    vm_compute. repeat constructor.
Defined.

(** A network that the catalog does not have, on the catalog that fails
    then. *)
Lemma unknown_network_witness :
  exists w',
    run machine (options "previewnet" true false false false)
    = (Throw (Unresolvable "previewnet"), w')
    /\ events w' = []
    /\ calls w' = [GetSelectedConfigurationData "previewnet"]
    /\ fs w' = disk
    /\ env w' = ∅.
Proof.
  apply (proj1 (unknown_network_emits_nothing_of_its_own (P := platform) (H := machine)
                  (originalNodeConfiguration := template) (catalog := catalog)
                  (state (options "previewnet" true false false false)) ∅ disk eq_refl)).
  reflexivity.
Defined.

(** On that network the observer does not receive UnresolvableError: on
    the catalog that fails it receives nothing, and on the catalog that
    answers with the local entry the run goes through, copies the
    application document into the working directory and delivers Finish. *)
Lemma unknown_network_delivers_no_UnresolvableError :
  prop_get "previewnet" (@networks catalog) = None
  /\ events (run machine (options "previewnet" true false false false)).2 = []
  /\ prop_get "previewnet" (@networks lenient) = None
  /\ events (@onStart platform machine template lenient
               (state (options "previewnet" true false false false)) (initial ∅ disk)).2
     = [Finish]
  /\ files disk !! "/work/compose-network/mirror-node/application.yml" = None
  /\ files (fs (@onStart platform machine template lenient
                  (state (options "previewnet" true false false false)) (initial ∅ disk)).2)
       !! "/work/compose-network/mirror-node/application.yml" = Some (render shipped).
Proof.
  split; [reflexivity |]. split; [reflexivity |]. split; [reflexivity |].
  split; [vm_compute; reflexivity |]. split; vm_compute; reflexivity.
Qed.

Lemma ready_machine_has_no_necessary_port_taken (port : Z) :
  port ∈ NECESSARY_PORTS -> port ∉ @portsInUse machine.
Proof.
  intros Hn Hb. apply list_elem_of_singleton in Hb as ->.
  revert Hn. apply (bool_decide_unpack (8080 ∉ NECESSARY_PORTS)). vm_compute. exact I.
Defined.

(** A run with the optional port 8080 taken goes on, and says so; a run
    with the necessary port 5600 taken stops at the scan. *)
Lemma port_conflict_witness :
  (portAdvisory 8080 ∈ log (run machine (options "local" true false false false)).2
   /\ CreateEphemeralDirectories "/work"
        ∈ calls (run machine (options "local" true false false false)).2)
  /\ (exists port, port ∈ NECESSARY_PORTS
                   /\ (run crowded (options "local" true false false false)).1
                      = Throw (PortConflict port))
  /\ events (run crowded (options "local" true false false false)).2 = [].
Proof.
  split; [| split].
  - destruct (necessary_port_fatal_optional_port_advisory (P := platform) (H := machine)
                (originalNodeConfiguration := template) (catalog := catalog)
                (state (options "local" true false false false)) localNetwork ∅ disk
                _ _ eq_refl eq_refl (surjective_pairing _)) as [_ Hfree].
    destruct (Hfree ready_machine_has_no_necessary_port_taken) as (Hlog & _ & Hcall).
    split; [| exact Hcall].
    apply Hlog; [vm_compute | vm_compute]; repeat constructor.
  - destruct (necessary_port_fatal_optional_port_advisory (P := platform) (H := crowded)
                (originalNodeConfiguration := template) (catalog := catalog)
                (state (options "local" true false false false)) localNetwork ∅ disk
                _ _ eq_refl eq_refl (surjective_pairing _)) as [Htaken _].
    destruct Htaken as ((port & Hn & _ & Hout) & _).
    + exists 5600. split; vm_compute; repeat constructor.
    + by exists port.
  - destruct (necessary_port_fatal_optional_port_advisory (P := platform) (H := crowded)
                (originalNodeConfiguration := template) (catalog := catalog)
                (state (options "local" true false false false)) localNetwork ∅ disk
                _ _ eq_refl eq_refl (surjective_pairing _)) as [Htaken _].
    destruct Htaken as (_ & Hev & _).
    + exists 5600. split; vm_compute; repeat constructor.
    + exact Hev.
Defined.

(** The catalog entry sets RELAY_RATE_LIMIT_DISABLED to false; with limits
    off the finished run has it at true. *)
Lemma limits_off_witness :
  rateLimitsDisabled (env (run machine (options "local" true false false false)).2).
Proof.
  apply (proj2 (limits_off_forces_rate_limit_variables (P := platform) (H := machine)
                  (originalNodeConfiguration := template) (catalog := catalog)
                  (state (options "local" true false false false)) eq_refl)
           ∅ disk (run machine (options "local" true false false false)).1
           (run machine (options "local" true false false false)).2).
  - apply surjective_pairing.
  - vm_compute. repeat constructor.
Defined.


(** The bootstrap step with one override, over a stale file. *)
Lemma bootstrap_overwrite_witness :
  exists w',
    @configureNodeProperties platform machine template
      (state (options "local" true false false false))
      (Some [mkConfiguration "contracts.chainId" "296"]) (initial ∅ prepared)
    = (Normal tt, w')
    /\ files (fs w')
         !! "/work/compose-network/network-node/data/config/bootstrap.properties"
       = Some ("ledger.id=0x03" +:+ LF +:+ "contracts.chainId=298" +:+ LF
               +:+ "contracts.chainId=296" +:+ LF).
Proof.
  destruct (proj1 (bootstrap_properties_overwritten_when_overrides_present
                     (P := platform) (H := machine) (originalNodeConfiguration := template)
                     (state (options "local" true false false false)) (initial ∅ prepared))
              [mkConfiguration "contracts.chainId" "296"] eq_refl)
    as (w' & Hrun & Hfiles & _).
  exists w'. split; [exact Hrun |]. rewrite Hfiles. apply lookup_insert_eq.
Defined.

(** On the entry without node properties the run finishes and the copied
    bootstrap.properties keeps its content, which is not the template's. *)
Lemma bare_network_keeps_copied_bootstrap_properties :
  (run machine (options "bare" true false false false)).1 = Normal tt
  /\ files (fs (run machine (options "bare" true false false false)).2)
       !! @bootstrapPath platform (state (options "bare" true false false false))
     = Some "stale=1"
  /\ "stale=1" <> propertyLines (@bootsrapProperties template) +:+ propertyLines [].
Proof. split; [| split]; vm_compute; [reflexivity | reflexivity | discriminate]. Qed.

(** On that entry the run finishes although nothing is written to
    bootstrap.properties. *)
Lemma bare_network_finishes_without_properties_write :
  (run machine (options "bare" true false false false)).1 = Normal tt
  /\ events (run machine (options "bare" true false false false)).2 = [Finish]
  /\ forall data,
       WriteFileSync (@bootstrapPath platform (state (options "bare" true false false false)))
         data
       ∉ calls (run machine (options "bare" true false false false)).2.
Proof.
  split; [reflexivity |]. split; [reflexivity |].
  intros data. vm_compute. intros Hin.
  repeat (apply elem_of_cons in Hin as [Hin|Hin]; [discriminate Hin |]).
  by apply elem_of_nil in Hin.
Qed.

(** The mirror-node step in multi-node mode, on the prepared directory. *)
Lemma multi_node_witness :
  exists w',
    @configureMirrorNodeProperties platform machine template
      (state (options "local" true true false false)) (initial ∅ prepared)
    = (Normal tt, w')
    /\ env w' !! "RELAY_HEDERA_NETWORK" = Some RELAY_HEDERA_NETWORK_VALUE
    /\ files (fs w') !! "/work/compose-network/mirror-node/application.yml"
       = @yaml_dump platform 256
           (JObject [("hedera", JObject [("mirror", JObject [
              ("importer", JObject [
                 ("dataPath", JString "/node/");
                 ("downloader", JObject [
                    ("sources", JArray [JObject [("type", JString "LOCAL")]]);
                    ("bucketName", JString "hedera-streams")]);
                 ("startDate", JString "1970-01-01T00:00:00Z")]);
              ("monitor", JObject [
                 ("nodes", @multiNodeProperties template);
                 ("publish", JObject [("enabled", JBool false)])]);
              ("grpc", JObject [("port", JNumber "5600")])])])]).
Proof.
  destruct (proj1 (multi_node_sets_monitor_nodes_and_relay_network
                     (P := platform) (H := machine) (originalNodeConfiguration := template)
                     (state (options "local" true true false false)) (initial ∅ prepared))
              eq_refl (render shipped) shipped)
    as (application' & Hm & _ & Hgo).
  - vm_compute. reflexivity.
  - vm_compute. reflexivity.
  - split; [intros [=] | split; [intros [=] | intros _; eexists; reflexivity]].
  - vm_compute in Hm. injection Hm as <-.
    destruct (Hgo _ eq_refl eq_refl) as (w' & Hrun & Hfile & Henv).
    exists w'. split; [exact Hrun |]. split; [exact Henv | exact Hfile].
Defined.

(** Multi-node mode on a document whose monitor section is a sequence: the
    step returns and sets the variable, and writes the document back as
    it was loaded, without the template as its monitor node list. *)
Lemma sequence_monitor_keeps_its_node_list :
  let r := @configureMirrorNodeProperties Faults.lister machine template
             (state (options "local" true true false true))
             (initial ∅ Faults.sequenced) in
  multiNode (options "local" true true false true) = true
  /\ r.1 = Normal tt
  /\ env r.2 !! "RELAY_HEDERA_NETWORK" = Some RELAY_HEDERA_NETWORK_VALUE
  /\ files (fs r.2) !! "/work/compose-network/mirror-node/application.yml"
     = Some (render Faults.listed)
  /\ @yaml_load Faults.lister (render Faults.listed) = Some Faults.listed
  /\ get_path monitor_nodes Faults.listed <> Normal (@multiNodeProperties template).
Proof.
  intros r. split; [reflexivity |]. split; [reflexivity |].
  split; [reflexivity |]. split; [vm_compute; reflexivity |].
  split; [vm_compute; reflexivity |]. vm_compute. discriminate.
Qed.

(** The run on the local entry, step by step. *)
Lemma bring_up_witness :
  exists w',
    run machine (options "local" true false false false) = (Normal tt, w')
    /\ events w' = [Finish]
    /\ calls w' =
         [ GetSelectedConfigurationData "local";
           IsCorrectDockerComposeVersion true; CheckDocker true;
           CheckDockerResources false true;
           IsPortInUse [5551; 8545; 5600; 5433; 50211; 8082; 7546; 8080; 6379; 3000];
           CreateEphemeralDirectories "/work";
           CopyPaths
             [ ("/app/compose-network/network-node/data/config/",
                "/work/compose-network/network-node/data/config");
               ("/app/compose-network/mirror-node/application.yml",
                "/work/compose-network/mirror-node/application.yml");
               ("/app/src/services/record-parser", "/work/services/record-parser") ];
           WriteFileSync
             "/work/compose-network/network-node/data/config/bootstrap.properties"
             ("ledger.id=0x03" +:+ LF +:+ "contracts.chainId=298" +:+ LF
              +:+ "contracts.chainId=296" +:+ LF);
           ReadFileSync "/work/compose-network/mirror-node/application.yml";
           WriteFileSync "/work/compose-network/mirror-node/application.yml"
             (render shipped) ].
Proof.
  destruct (bring_up_goes_through_and_finishes_once (P := platform) (H := machine)
              (originalNodeConfiguration := template) (catalog := catalog)
              (state (options "local" true false false false)) localNetwork ∅ disk
              (@createEphemeralDirectories platform "/work" disk).2
              (@copyPaths platform
                    (@configFiles platform (state (options "local" true false false false)))
                    (@createEphemeralDirectories platform "/work" disk).2).2
              (render shipped) (render shipped) shipped shipped)
    as (w' & Hrun & Hev & Hcalls & _).
  - reflexivity.
  - reflexivity.
  - reflexivity.
  - exact ready_machine_has_no_necessary_port_taken.
  - reflexivity.
  - vm_compute. reflexivity.
  - intros _. reflexivity.
  - vm_compute. reflexivity.
  - vm_compute. reflexivity.
  - reflexivity.
  - reflexivity.
  - reflexivity.
  - exists w'. split; [exact Hrun |]. split; [exact Hev |]. rewrite Hcalls.
    vm_compute. reflexivity.
Defined.

(** All three flags on: the three templates are in place and the sections
    that no block names are the shipped ones. *)
Lemma mirror_blocks_witness :
  exists application',
    @mutated template (state (options "local" false true true false)) shipped
    = Normal application'
    /\ get_path importer_dataPath application' = Normal (JString "/tmp/turbo")
    /\ get_path downloader_local application'
       = Normal (JObject [("deleteAfterProcessing", JBool false)])
    /\ get_path monitor_nodes application' = Normal (@multiNodeProperties template)
    /\ get_path ["hedera"; "mirror"; "grpc"] application'
       = get_path ["hedera"; "mirror"; "grpc"] shipped
    /\ get_path ["hedera"; "mirror"; "importer"; "downloader"; "bucketName"] application'
       = get_path ["hedera"; "mirror"; "importer"; "downloader"; "bucketName"] shipped.
Proof.
  destruct (@mutated template (state (options "local" false true true false)) shipped)
    as [application'|] eqn:Hm; [| discriminate Hm].
  exists application'. split; [reflexivity |].
  destruct (proj2 (mirror_blocks_are_independent_and_keep_the_rest
                     (P := platform) (H := machine) (originalNodeConfiguration := template)
                     (state (options "local" false true true false)) shipped)
              application' Hm)
    as (Hrest & Hturbo & _ & Hdebug & _ & Hmulti & _).
  assert (Hdiv : forall q,
            forallb (diverge q) (targets (state (options "local" false true true false)))
            = true ->
            forall t, t ∈ targets (state (options "local" false true true false)) ->
                      diverge q t = true).
  { intros q Hall t Ht. rewrite forallb_forall in Hall. apply Hall.
    by apply list_elem_of_In. }
  split; [| split; [| split; [| split]]].
  - apply (proj1 (Hturbo eq_refl)). by eexists.
  - apply (Hdebug eq_refl). by eexists.
  - apply (Hmulti eq_refl). by eexists.
  - apply Hrest, Hdiv. reflexivity.
  - apply Hrest, Hdiv. reflexivity.
Defined.

(** Without an environment list and with limits off, the rate-limit
    variable stays unset. *)
Lemma undefined_env_configuration_witness :
  exists w',
    configureEnvVariables (state (options "bare" true false false false))
      [mkConfiguration "NETWORK_NODE_IMAGE_TAG" "0.49.0"] None (initial ∅ disk)
    = (Normal tt, w')
    /\ env w' !! "RELAY_RATE_LIMIT_DISABLED" = None.
Proof.
  destruct (proj1 (undefined_env_configuration_skips_rate_limit_override
                     (state (options "bare" true false false false))
                     [mkConfiguration "NETWORK_NODE_IMAGE_TAG" "0.49.0"] (initial ∅ disk)))
    as (w' & Hrun & _ & Hkeep).
  exists w'. split; [exact Hrun |]. rewrite Hkeep; [reflexivity |].
  intros variable Hin. apply list_elem_of_singleton in Hin as ->. discriminate.
Defined.
End Witnesses.

(** * Further properties of the state *)

Section Further.
Context {P : Platform} {H : Host}
        {originalNodeConfiguration : OriginalNodeConfiguration}
        {catalog : ConfigurationData}.

(** **** One event, delivered last *)

(** X1. Every run of [onStart] either returns, and then the observer has
    received exactly one event, Finish when the three checks passed and
    UnresolvableError when one failed, or throws, and then the observer has
    received nothing: no run delivers two events, and no failure after the
    readiness test is reported to the observer. *)
Theorem onStart_returns_with_one_event_or_throws_with_none
    (this : InitState) (e : gmap string string) (f : FileSystem)
    (out : Completion unit) (w' : World) :
  onStart this (initial e f) = (out, w') ->
  (out = Normal tt /\ observer this = true
   /\ ((ready this = true /\ events w' = [Finish])
       \/ (ready this = false /\ events w' = [UnresolvableError])))
  \/ (exists err, out = Throw err /\ events w' = []).
Proof.
  intros Hrun. rewrite onStart_eq in Hrun.
  destruct (entry_for (network (cliOptions this))) as [configurationData|].
  - destruct (ready this).
    + destruct (materialize_delivers _ _ _ _ _ Hrun) as [(-> & Ho & ->) | (err & -> & ->)].
      * left. repeat split; [done |]. left. done.
      * right. by eexists.
    + destruct (delivers_update _ _ _ _ _ Hrun) as [(-> & Ho & ->) | (err & -> & ->)].
      * left. repeat split; [done |]. right. done.
      * right. by eexists.
  - injection Hrun as <- <-. right. by eexists.
Qed.

(** **** Running without a subscriber *)

Lemma one_event_apart_bind {A} (m : M A) (k1 k2 : A -> M unit) (w : World) :
  (forall a w1, one_event_apart (k1 a w1) (k2 a w1)) ->
  one_event_apart (bind m k1 w) (bind m k2 w).
Proof.
  intros Hk. rewrite !run_bind. destruct (m w) as [[a|err] w1]; [apply Hk |].
  intros w' [=].
Qed.

Lemma materialize_unsubscribed (this : InitState) (configurationData : NetworkConfiguration)
    (w : World) :
  observer this = false ->
  one_event_apart (materialize (subscribe this) configurationData w)
                  (materialize this configurationData w).
Proof.
  intros Ho. unfold materialize.
  do 6 (apply one_event_apart_bind; intros _ ?).
  intros w' Hrun. unfold update in *. rewrite Ho. cbn in Hrun.
  injection Hrun as <-. by eexists.
Qed.

(** X2. When nobody has subscribed and everything else is as in a run that
    goes through, [onStart] does all the preparation (the file tree and the
    environment are those of the run that goes through) and then throws a
    TypeError at [this.observer!.update]: no event is delivered. *)
Theorem onStart_without_subscriber_prepares_then_throws
    (this : InitState) (configurationData : NetworkConfiguration)
    (e : gmap string string) (f f1 f2 : FileSystem) (content text : string)
    (application application' : JsValue) :
  observer this = false ->
  prop_get (network (cliOptions this)) networks = Some configurationData ->
  ready this = true ->
  (forall port, port ∈ NECESSARY_PORTS -> port ∉ portsInUse) ->
  createEphemeralDirectories (workDir (cliOptions this)) f = (Normal tt, f1) ->
  copyPaths (configFiles this) f1 = (Normal tt, f2) ->
  (is_Some (nodeConfiguration configurationData) ->
   writable (bootstrapPath this) = true) ->
  files (bootstrapped this configurationData f2) !! applicationPath this = Some content ->
  yaml_load content = Some application ->
  mutated this application = Normal application' ->
  yaml_dump 256 application' = Some text ->
  writable (applicationPath this) = true ->
  exists w',
    onStart this (initial e f) = (Throw (TypeError "update"), w')
    /\ events w' = []
    /\ fs w' = written (applicationPath this) text (bootstrapped this configurationData f2)
    /\ env w' = relayedEnv this (configured this configurationData e).
Proof.
  intros Ho Hcat Hready Hfree Hc Hp Hwb Hfile Hload Hm Hdump Hwa.
  rewrite onStart_eq, (entry_for_known _ _ Hcat), Hready.
  destruct (materialize_ok (subscribe this) configurationData (probed this (initial e f))
              f1 f2 content text application application')
    as (w1 & Hrun & V & _ & F & E); try assumption; [reflexivity |].
  destruct (materialize_unsubscribed this configurationData _ Ho _ Hrun) as (w' & -> & ->).
  exists w'. split; [reflexivity |]. cbn in V, F, E.
  split; [| split; [exact F |]].
  - by apply (app_inj_tail (events w') [] Finish Finish) in V as [-> _].
  - rewrite E. cbn. unfold relayedEnv. by destruct (multiNode (cliOptions this)).
Qed.

(** **** Failures on the way *)

(** X3. The environment is exported only after the working directory has
    been prepared, and a failed preparation is not undone: when
    [createEphemeralDirectories] raises, [copyPaths] is never called; when
    either of the two raises, [onStart] throws what it raised, with the
    file tree as the failed operation left it, the environment as it was
    and without any event. *)
Theorem preparation_failure_leaves_the_environment
    (this : InitState) (configurationData : NetworkConfiguration)
    (e : gmap string string) (f : FileSystem) (err : JsError) :
  prop_get (network (cliOptions this)) networks = Some configurationData ->
  ready this = true ->
  (forall port, port ∈ NECESSARY_PORTS -> port ∉ portsInUse) ->
  (forall f1,
     createEphemeralDirectories (workDir (cliOptions this)) f = (Throw err, f1) ->
     exists w',
       onStart this (initial e f) = (Throw err, w')
       /\ env w' = e /\ fs w' = f1 /\ events w' = []
       /\ CopyPaths (configFiles this) ∉ calls w')
  /\ (forall f1 f2,
        createEphemeralDirectories (workDir (cliOptions this)) f = (Normal tt, f1) ->
        copyPaths (configFiles this) f1 = (Throw err, f2) ->
        exists w',
          onStart this (initial e f) = (Throw err, w')
          /\ env w' = e /\ fs w' = f2 /\ events w' = []).
Proof.
  intros Hcat Hready Hfree.
  remember (NECESSARY_PORTS ++ OPTIONAL_PORTS)%list as ports eqn:Hports.
  destruct (advise_frame ports (with_call (IsPortInUse ports) (probed this (initial e f))))
    as (E0 & F0 & V0 & C0).
  split; [intros f1 Hc | intros f1 f2 Hc Hp];
    rewrite onStart_eq, (entry_for_known _ _ Hcat), Hready; unfold materialize;
    rewrite <- Hports, run_bind, isPortInUse_run, (no_conflict _ Hfree);
    unfold logger at 1; rewrite bind_modify, run_bind;
    unfold prepareWorkDirectory, FileSystemUtils_createEphemeralDirectories,
      FileSystemUtils_copyPaths, fsutil, logger;
    rewrite bind_modify, bind_bind, bind_modify, run_bind;
    unfold attempt at 1; cbn [fs with_call with_log]; rewrite F0;
    change (fs (with_call (IsPortInUse ports) (probed this (initial e f)))) with f;
    rewrite Hc; cbn [fst snd].
  - eexists. split; [reflexivity |].
    cbn [env fs events calls with_call with_log with_fs]. rewrite E0, V0, C0.
    repeat split. cbn. intros Hin.
    repeat match goal with
      | Hin : _ ∈ (_ ++ _)%list |- _ => apply elem_of_app in Hin as [Hin | Hin]
      | Hin : _ ∈ _ :: _ |- _ => apply elem_of_cons in Hin as [Hin | Hin]; [discriminate Hin |]
      | Hin : _ ∈ [] |- _ => by apply elem_of_nil in Hin
      end.
  - rewrite bind_modify. unfold attempt.
    cbn [fs with_call with_fs]. rewrite Hp. cbn [fst snd].
    eexists. split; [reflexivity |].
    cbn [env fs events with_call with_log with_fs]. rewrite E0, V0. done.
Qed.

(** X4. A refused write of bootstrap.properties is not rolled back and not
    reported: [onStart] throws with the working directory already copied
    and the environment already exported, the application document is not
    read, and the observer receives nothing. *)
Theorem bootstrap_write_failure_is_not_rolled_back
    (this : InitState) (configurationData : NetworkConfiguration) (node : NodeConfiguration)
    (e : gmap string string) (f f1 f2 : FileSystem) :
  prop_get (network (cliOptions this)) networks = Some configurationData ->
  ready this = true ->
  (forall port, port ∈ NECESSARY_PORTS -> port ∉ portsInUse) ->
  createEphemeralDirectories (workDir (cliOptions this)) f = (Normal tt, f1) ->
  copyPaths (configFiles this) f1 = (Normal tt, f2) ->
  nodeConfiguration configurationData = Some node ->
  writable (bootstrapPath this) = false ->
  exists w',
    onStart this (initial e f) = (Throw (FileSystemError (bootstrapPath this)), w')
    /\ events w' = []
    /\ fs w' = f2
    /\ env w' = configured this configurationData e
    /\ ReadFileSync (applicationPath this) ∉ calls w'.
Proof.
  intros Hcat Hready Hfree Hc Hp Hnode Hw.
  rewrite onStart_eq, (entry_for_known _ _ Hcat), Hready. unfold materialize.
  rewrite run_bind, isPortInUse_run, (no_conflict _ Hfree).
  remember (NECESSARY_PORTS ++ OPTIONAL_PORTS)%list as ports eqn:Hports.
  destruct (advise_frame ports (with_call (IsPortInUse ports) (probed this (initial e f))))
    as (E0 & F0 & V0 & C0).
  unfold logger at 1. rewrite bind_modify, run_bind.
  edestruct (prepareWorkDirectory_ok this) as (w2 & -> & E2 & F2 & V2 & C2);
    [cbn [fs with_log]; rewrite F0; exact Hc | exact Hp |].
  rewrite run_bind.
  edestruct (configureEnvVariables_some this) as (w3 & -> & E3 & F3 & V3 & C3).
  rewrite run_bind, Hnode. cbn [fmap option_fmap option_map].
  destruct (configureNodeProperties_some this (properties node) w3)
    as (w4 & E4 & F4 & V4 & C4 & ->).
  rewrite Hw. exists w4. split; [reflexivity |].
  rewrite V4, F4, E4, C4, V3, F3, E3, C3, V2, F2, E2, C2.
  cbn [events env calls with_log]. rewrite V0, E0, C0.
  repeat split. cbn. intros Hin.
  repeat match goal with
    | Hin : _ ∈ (_ ++ _)%list |- _ => apply elem_of_app in Hin as [Hin | Hin]
    | Hin : _ ∈ _ :: _ |- _ => apply elem_of_cons in Hin as [Hin | Hin]; [discriminate Hin |]
    | Hin : _ ∈ [] |- _ => by apply elem_of_nil in Hin
    end.
Qed.

(** **** The export *)

Lemma exported_lookup (l : list Configuration) (e : gmap string string) (k : string) :
  exported l e !! k = match last_value k l with
                      | Some x => Some x
                      | None => e !! k
                      end.
Proof.
  revert e. induction l as [|variable l IH]; intros e; [done |].
  change (exported (variable :: l) e) with (exported l (<[key variable := value variable]> e)).
  rewrite IH. cbn [last_value]. destruct (last_value k l); [done |].
  destruct (decide (key variable = k)) as [<- | Hne].
  - apply lookup_insert_eq.
  - by apply lookup_insert_ne.
Qed.

Lemma rateLimited_lookup (this : InitState) (e : gmap string string) (k : string) :
  limits (cliOptions this) = true \/ k ∉ rateLimitKeys ->
  rateLimited this e !! k = e !! k.
Proof.
  unfold rateLimited. intros [-> | Hk]; [done |].
  destruct (limits (cliOptions this)); [done |].
  unfold rateLimitKeys in Hk. rewrite !not_elem_of_cons in Hk.
  destruct Hk as (K1 & K2 & K3 & _). by rewrite !lookup_insert_ne.
Qed.

(** X5. The export is last writer wins.  For lists of variables that
    [process.env] keeps as they are given (names that are not empty and
    have no equals sign, names and values without a NUL) and for such a
    name: after [configureEnvVariables], the name, unless it is a
    rate-limit name forced because limits are off, has the value of the
    last entry that names it, the environment list coming after the image
    tags and being left out when it is undefined; a name that no entry
    names keeps the value it had.  With limits on, this holds of the three
    rate-limit names too: nothing is forced. *)
Theorem export_is_last_writer_wins
    (this : InitState) (imageTagConfiguration : list Configuration)
    (envConfiguration : option (list Configuration)) (w : World) :
  Forall portable (imageTagConfiguration ++ default [] envConfiguration) ->
  exists w',
    configureEnvVariables this imageTagConfiguration envConfiguration w = (Normal tt, w')
    /\ forall k,
         properName k ->
         limits (cliOptions this) = true \/ envConfiguration = None \/ k ∉ rateLimitKeys ->
         env w' !! k =
         match last_value k (imageTagConfiguration ++ default [] envConfiguration) with
         | Some x => Some x
         | None => env w !! k
         end.
Proof.
  intros _. destruct envConfiguration as [envConfiguration|].
  - destruct (configureEnvVariables_some this imageTagConfiguration envConfiguration w)
      as (w' & Hrun & E & _).
    exists w'. split; [exact Hrun |]. intros k _ Hk. rewrite E.
    rewrite rateLimited_lookup by (destruct Hk as [Hk | [Hk | Hk]]; [by left | done | by right]).
    by rewrite <- exported_app, exported_lookup.
  - destruct (configureEnvVariables_none this imageTagConfiguration w)
      as (w' & Hrun & E & _).
    exists w'. split; [exact Hrun |]. intros k _ _. rewrite E.
    cbn [default]. by rewrite app_nil_r, exported_lookup.
Qed.

Lemma rateLimited_forced_lookup (this : InitState) (e e' : gmap string string) (k : string) :
  limits (cliOptions this) = false -> k ∈ rateLimitKeys ->
  rateLimited this e !! k = rateLimited this e' !! k.
Proof.
  unfold rateLimited, rateLimitKeys. intros -> Hk. rewrite !elem_of_cons in Hk.
  destruct Hk as [-> | [-> | [-> | Hk]]]; [| | | by apply elem_of_nil in Hk];
    by simplify_map_eq.
Qed.

(** X6. [configureEnvVariables] always returns, touches neither the file
    tree nor the observer, and is idempotent on the environment: a second
    export of the same lists leaves the environment of the first. *)
Theorem export_is_idempotent
    (this : InitState) (imageTagConfiguration : list Configuration)
    (envConfiguration : option (list Configuration)) (w : World) :
  exists w1 w2,
    configureEnvVariables this imageTagConfiguration envConfiguration w = (Normal tt, w1)
    /\ configureEnvVariables this imageTagConfiguration envConfiguration w1 = (Normal tt, w2)
    /\ env w2 = env w1
    /\ fs w1 = fs w /\ events w1 = events w /\ calls w1 = calls w.
Proof.
  destruct envConfiguration as [envConfiguration|].
  - destruct (configureEnvVariables_some this imageTagConfiguration envConfiguration w)
      as (w1 & Hrun1 & E1 & F1 & V1 & C1).
    destruct (configureEnvVariables_some this imageTagConfiguration envConfiguration w1)
      as (w2 & Hrun2 & E2 & _).
    exists w1, w2. repeat (split; [done |]). split; [| done].
    apply map_eq. intros k. rewrite E2, E1. rewrite <- !exported_app.
    destruct (limits (cliOptions this)) eqn:Hl.
    + repeat (progress (rewrite ?exported_lookup; rewrite ?rateLimited_lookup by (by left))).
      by destruct (last_value k _).
    + destruct (decide (k ∈ rateLimitKeys)) as [Hk | Hk].
      * by apply rateLimited_forced_lookup.
      * repeat (progress (rewrite ?exported_lookup;
                            rewrite ?rateLimited_lookup by (by right))).
        by destruct (last_value k _).
  - destruct (configureEnvVariables_none this imageTagConfiguration w)
      as (w1 & Hrun1 & E1 & F1 & V1 & C1).
    destruct (configureEnvVariables_none this imageTagConfiguration w1)
      as (w2 & Hrun2 & E2 & _).
    exists w1, w2. repeat (split; [done |]). split; [| done].
    apply map_eq. intros k. rewrite E2, E1, !exported_lookup.
    by destruct (last_value k _).
Qed.

(** **** The bootstrap file *)

(** X7. Regenerating bootstrap.properties changes nothing: a second run of
    the step with the same list leaves the file tree of the first, whatever
    the tree was before; and when the write is refused the step throws and
    leaves the tree as it was. *)
Theorem bootstrap_regeneration_is_idempotent
    (this : InitState) (overrides : list Configuration) (w : World) :
  (writable (bootstrapPath this) = true ->
   exists w1 w2,
     configureNodeProperties this (Some overrides) w = (Normal tt, w1)
     /\ configureNodeProperties this (Some overrides) w1 = (Normal tt, w2)
     /\ fs w2 = fs w1
     /\ files (fs w1) !! bootstrapPath this = Some (bootstrapText overrides)
     /\ env w1 = env w /\ events w1 = events w)
  /\ (writable (bootstrapPath this) = false ->
      exists w1,
        configureNodeProperties this (Some overrides) w
        = (Throw (FileSystemError (bootstrapPath this)), w1)
        /\ fs w1 = fs w /\ env w1 = env w /\ events w1 = events w).
Proof.
  destruct (configureNodeProperties_some this overrides w) as (u & Eu & Fu & Vu & Cu & Hrun).
  split; intros Hw; rewrite Hw in Hrun.
  - eexists. destruct (configureNodeProperties_some this overrides
                        (with_log
                           (mkLogEntry LInfo
                              "Needed bootsrap properties were set for this configuration."
                              stateName)
                           (with_fs (written (bootstrapPath this) (bootstrapText overrides)
                                       (fs u)) u)))
      as (u2 & Eu2 & Fu2 & Vu2 & Cu2 & Hrun2).
    rewrite Hw in Hrun2. eexists. split; [exact Hrun |]. split; [exact Hrun2 |].
    cbn [fs env events with_log with_fs]. rewrite Fu2. cbn [fs with_log with_fs].
    repeat split; try done.
    + unfold written. cbn [files dirs]. by rewrite insert_insert_eq.
    + unfold written. cbn [files]. apply lookup_insert_eq.
  - exists u. by rewrite Hrun.
Qed.

Lemma contains_split (c : Ascii.ascii) (a1 a2 b1 b2 : string) :
  contains c a1 = false -> contains c a2 = false ->
  a1 +:+ String c b1 = a2 +:+ String c b2 -> a1 = a2 /\ b1 = b2.
Proof.
  revert a2. induction a1 as [|x a1 IH]; intros [|y a2] C1 C2 E;
    cbn [contains] in C1, C2.
  - by injection E as ->.
  - exfalso. injection E as <- _. by rewrite decide_True in C2.
  - exfalso. injection E as -> _. by rewrite decide_True in C1.
  - injection E as -> E.
    destruct (decide (c = y)); [discriminate C1 |].
    destruct (IH a2 C1 C2 E) as [-> ->]. done.
Qed.

Lemma propertyLine_split (p q : Configuration) (r1 r2 : string) :
  clean p -> clean q ->
  propertyLine p +:+ r1 = propertyLine q +:+ r2 -> p = q /\ r1 = r2.
Proof.
  intros (K1 & K2 & V1) (K1' & K2' & V1'). unfold propertyLine, LF.
  rewrite !append_assoc. intros E.
  apply (contains_split _ _ _ _ _ K1 K1') in E as [Ek E].
  apply (contains_split _ _ _ _ _ V1 V1') in E as [Ev ->].
  destruct p, q. cbn in *. by subst.
Qed.

(** X8. The text that is written determines the properties: two lists of
    properties, with no equals sign or line feed in a key and no line feed
    in a value, that give the same text are the same list. *)
Theorem property_text_determines_the_properties (l1 l2 : list Configuration) :
  Forall clean l1 -> Forall clean l2 ->
  propertyLines l1 = propertyLines l2 -> l1 = l2.
Proof.
  intros H1. revert l2. induction H1 as [|p l1 Hp H1 IH]; intros l2 H2 E.
  - destruct l2 as [|q l2]; [done |]. exfalso.
    cbn [propertyLines] in E. unfold propertyLine in E. rewrite !append_assoc in E.
    destruct (key q); discriminate E.
  - destruct H2 as [|q l2 Hq H2].
    + exfalso. cbn [propertyLines] in E. unfold propertyLine in E.
      rewrite !append_assoc in E. destruct (key p); discriminate E.
    + cbn [propertyLines] in E.
      apply (propertyLine_split _ _ _ _ Hp Hq) in E as [-> E]. f_equal. by apply IH.
Qed.

(** **** The mirror node step when it fails *)

(** X9. A run of [configureMirrorNodeProperties] that throws leaves the
    file tree and the events as they were.  It leaves the environment as it
    was too, except in multi-node mode when the three blocks went through
    and the dump or the write failed: RELAY_HEDERA_NETWORK is then already
    set although the document was not written. *)
Theorem mirror_step_failure_leaves_the_file_tree
    (this : InitState) (w : World) (err : JsError) (w' : World) :
  configureMirrorNodeProperties this w = (Throw err, w') ->
  fs w' = fs w
  /\ events w' = events w
  /\ (env w' = env w
      \/ (multiNode (cliOptions this) = true
          /\ env w' = <["RELAY_HEDERA_NETWORK" := RELAY_HEDERA_NETWORK_VALUE]> (env w)
          /\ exists content application application',
               files (fs w) !! applicationPath this = Some content
               /\ yaml_load content = Some application
               /\ mutated this application = Normal application'
               /\ (yaml_dump 256 application' = None
                   \/ writable (applicationPath this) = false))).
Proof.
  rewrite configureMirrorNodeProperties_eq. cbn zeta.
  destruct (files (fs w) !! applicationPath this) as [content|] eqn:Hf;
    [| intros [= <- <-]; repeat split; by left].
  destruct (yaml_load content) as [application|] eqn:Hl;
    [| intros [= <- <-]; repeat split; by left].
  destruct (mutated this application) as [application'|] eqn:Hm;
    [| intros [= <- <-]; repeat split; by left].
  unfold relayed.
  destruct (yaml_dump 256 application') as [text|] eqn:Hd;
    [destruct (writable (applicationPath this)) eqn:Hw; [discriminate |] |];
    intros [= <- <-]; destruct (multiNode (cliOptions this)); cbn;
    repeat split; try (by left);
    right; repeat split; exists content, application, application'; auto.
Qed.

Lemma assign_throws_TypeError (p : list string) (x v : JsValue) (err : JsError) :
  assign p x v = Throw err -> exists k, err = TypeError k.
Proof.
  revert v. induction p as [|k rest IH]; intros v E; [discriminate E |].
  destruct rest as [|k2 rest].
  - cbn in E. destruct v; try discriminate E; injection E as <-; by eexists.
  - rewrite assign_step in E.
    destruct (getProp v k) as [child|e0] eqn:Hg.
    + destruct (assign (k2 :: rest) x child) as [child'|e1] eqn:Ha; [discriminate E |].
      injection E as <-. by apply (IH child).
    + injection E as <-. destruct v; try discriminate Hg; injection Hg as <-; by eexists.
Qed.

(** An assignment that goes through has found an object or an array to
    assign on. *)
Lemma assign_needs_holder (holder : list string) (k : string) (x v v' : JsValue) :
  assign (holder ++ [k]) x v = Normal v' ->
  exists h, get_path holder v = Normal h /\ assignable h = true.
Proof.
  revert v v'. induction holder as [|h0 holder IH]; intros v v' E.
  - exists v. split; [done |]. cbn in E. by destruct v.
  - cbn [app] in E. destruct (holder ++ [k])%list as [|k2 rest] eqn:Hrest;
      [by destruct holder |].
    apply assign_inv in E as (ms & child & child' & -> & Hc & Ea & ->).
    cbn [get_path getProp]. rewrite Hc. by apply (IH child child').
Qed.

Lemma mutated_throws_TypeError (this : InitState) (application : JsValue) (err : JsError) :
  mutated this application = Throw err -> exists k, err = TypeError k.
Proof.
  unfold mutated, andThen.
  destruct (turboBlock this application) as [a1|e1] eqn:E1.
  - destruct (debugBlock this a1) as [a2|e2] eqn:E2.
    + unfold multiBlock. destruct (multiNode (cliOptions this)); [| discriminate].
      apply assign_throws_TypeError.
    + intros [= <-]. unfold debugBlock in E2.
      destruct (enableDebug (cliOptions this)); [| discriminate E2].
      by apply assign_throws_TypeError in E2.
  - intros [= <-]. unfold turboBlock, andThen in E1.
    destruct (fullMode (cliOptions this)); [discriminate E1 |]. cbn [negb] in E1.
    destruct (assign importer_dataPath (dataPath turboNodeProperties) application)
      as [a0|e0] eqn:E0.
    + by apply assign_throws_TypeError in E1.
    + injection E1 as <-. by apply assign_throws_TypeError in E0.
Qed.

(** X10. In multi-node mode, when the loaded document has nothing to
    assign on at hedera.mirror.monitor (the section is missing, null or a
    scalar), the step throws a TypeError: the document is not written and
    RELAY_HEDERA_NETWORK is not set. *)
Theorem missing_monitor_section_is_a_TypeError
    (this : InitState) (w : World) (content : string) (application : JsValue) :
  files (fs w) !! applicationPath this = Some content ->
  yaml_load content = Some application ->
  multiNode (cliOptions this) = true ->
  (forall h, get_path monitor application = Normal h -> assignable h = false) ->
  exists k w',
    configureMirrorNodeProperties this w = (Throw (TypeError k), w')
    /\ env w' = env w /\ fs w' = fs w /\ events w' = events w.
Proof.
  intros Hf Hl Hn Hmissing.
  rewrite configureMirrorNodeProperties_eq. cbn zeta. rewrite Hf, Hl.
  destruct (mutated this application) as [application'|err] eqn:Hm.
  - exfalso. destruct (mutated_inv _ _ _ Hm) as (a1 & a2 & E1 & E2 & E3).
    destruct (turboBlock_spec _ _ _ E1) as (F1 & _).
    destruct (debugBlock_spec _ _ _ E2) as (F2 & _).
    unfold multiBlock in E3. rewrite Hn in E3.
    destruct (assign_needs_holder monitor "nodes" _ _ _ E3) as (h & Hh & Ha).
    rewrite F2, F1 in Hh; [| intros _; split; reflexivity | intros _; reflexivity].
    rewrite (Hmissing h Hh) in Ha. discriminate Ha.
  - destruct (mutated_throws_TypeError _ _ _ Hm) as [k ->].
    do 2 eexists. split; [reflexivity |]. done.
Qed.

(** **** Running the blocks again *)

Lemma prop_set_fixed {V} (k : string) (x : V) (ms : list (string * V)) :
  prop_set k x ms = ms -> prop_get k ms = Some x.
Proof.
  induction ms as [|[k' v] ms IH]; [discriminate |]. cbn [prop_set prop_get].
  destruct (decide (k = k')) as [-> | Hne]; intros [= E]; [by subst | by apply IH].
Qed.

Lemma prop_set_set {V} (k : string) (x y : V) (ms : list (string * V)) :
  prop_set k x (prop_set k y ms) = prop_set k x ms.
Proof.
  induction ms as [|[k' v] ms IH]; cbn [prop_set].
  - by rewrite decide_True.
  - destruct (decide (k = k')) as [-> | Hne]; cbn [prop_set].
    + by rewrite decide_True.
    + by rewrite decide_False, IH.
Qed.

Lemma assign_object (k : string) (rest : list string) (x : JsValue) ms :
  assign (k :: rest) x (JObject ms) =
  match assign rest x (default JUndefined (prop_get k ms)) with
  | Normal child' => Normal (JObject (prop_set k child' ms))
  | Throw e => Throw e
  end.
Proof. destruct rest; reflexivity. Qed.

Lemma assign_cons_inv (k : string) (rest : list string) (x v v' : JsValue) :
  assign (k :: rest) x v = Normal v' ->
  (exists xs, v = JArray xs /\ rest = [] /\ v' = v)
  \/ (exists ms child',
        v = JObject ms
        /\ assign rest x (default JUndefined (prop_get k ms)) = Normal child'
        /\ v' = JObject (prop_set k child' ms)).
Proof.
  destruct rest as [|k2 rest].
  - cbn. destruct v; try discriminate; intros [= <-].
    + left. by eexists.
    + right. by do 2 eexists.
  - intros E. apply assign_inv in E as (ms & child & child' & -> & <- & Ea & ->).
    right. by do 2 eexists.
Qed.

(** An assignment that changes nothing still changes nothing after an
    assignment along a diverging path. *)
Lemma settled_frame (p q : list string) (x y v v' : JsValue) :
  diverge p q = true ->
  assign p x v = Normal v -> assign q y v = Normal v' -> assign p x v' = Normal v'.
Proof.
  revert q v v'. induction p as [|k p' IH]; intros q v v' D Sp Eq; [discriminate D |].
  destruct q as [|k' q']; [discriminate D |]. cbn [diverge] in D.
  apply assign_cons_inv in Eq as [(xs & -> & _ & ->) | (ms & c2 & -> & Eq & ->)]; [done |].
  rewrite assign_object in Sp.
  destruct (assign p' x (default JUndefined (prop_get k ms))) as [c1|] eqn:Ec;
    [| discriminate Sp].
  injection Sp as Sp. pose proof (prop_set_fixed _ _ _ Sp) as Hk.
  rewrite Hk in Ec. cbn [default id] in Ec.
  rewrite assign_object.
  destruct (decide (k = k')) as [<- | Hne].
  - rewrite prop_get_set_eq. cbn [default id].
    rewrite Hk in Eq. cbn [default id] in Eq.
    rewrite (IH q' c1 c2 D Ec Eq). by rewrite prop_set_set.
  - rewrite prop_get_set_ne, Hk by done. cbn [default id]. rewrite Ec.
    rewrite prop_set_id; [done |]. by rewrite prop_get_set_ne.
Qed.

Lemma assign_idempotent (p : list string) (x v v' : JsValue) :
  assign p x v = Normal v' -> assign p x v' = Normal v'.
Proof.
  revert v v'. induction p as [|k rest IH]; intros v v' E; [done |].
  apply assign_cons_inv in E as [(xs & -> & -> & ->) | (ms & c & -> & E & ->)].
  - done.
  - rewrite assign_object, prop_get_set_eq. cbn [default id].
    rewrite (IH _ _ E). by rewrite prop_set_set.
Qed.

Lemma settled_through (p : list string) (x : JsValue) (l : list (list string * JsValue))
    (v v' : JsValue) :
  forallb (fun entry => diverge p entry.1) l = true ->
  assign p x v = Normal v -> assign_all l v = Normal v' -> assign p x v' = Normal v'.
Proof.
  revert v. induction l as [|[q y] l IH]; intros v D S E.
  - by injection E as <-.
  - cbn [forallb] in D. apply andb_prop in D as [Dq D].
    cbn [assign_all] in E. unfold andThen in E.
    destruct (assign q y v) as [v1|] eqn:Eq; [| discriminate E].
    apply (IH v1 D); [| exact E]. by apply (settled_frame p q x y v v1).
Qed.

Lemma assign_all_settles (l : list (list string * JsValue)) (v v' : JsValue) :
  independent l = true -> assign_all l v = Normal v' ->
  Forall (fun entry => assign entry.1 entry.2 v' = Normal v') l.
Proof.
  revert v. induction l as [|[p x] l IH]; intros v I E; [constructor |].
  cbn [independent] in I. apply andb_prop in I as [D I].
  cbn [assign_all] in E. unfold andThen in E.
  destruct (assign p x v) as [v1|] eqn:Ep; [| discriminate E].
  constructor; [| by apply (IH v1)].
  apply (settled_through p x l v1 v' D); [| exact E]. by apply (assign_idempotent p x v).
Qed.

Lemma assign_all_settled (l : list (list string * JsValue)) (v : JsValue) :
  Forall (fun entry => assign entry.1 entry.2 v = Normal v) l -> assign_all l v = Normal v.
Proof.
  induction 1 as [|[p x] l E _ IH]; [done |].
  cbn [assign_all]. cbn in E. by rewrite E.
Qed.

Lemma mutated_assign_all (this : InitState) (application : JsValue) :
  mutated this application = assign_all (assignments this) application.
Proof.
  unfold mutated, turboBlock, debugBlock, multiBlock, assignments.
  destruct (fullMode (cliOptions this)), (enableDebug (cliOptions this)),
    (multiNode (cliOptions this)); cbn [negb app assign_all]; unfold andThen;
    repeat match goal with
      | |- context [match assign ?p ?x ?v with _ => _ end] => destruct (assign p x v)
      end; reflexivity.
Qed.

Lemma assignments_independent (this : InitState) : independent (assignments this) = true.
Proof.
  unfold assignments.
  by destruct (fullMode (cliOptions this)), (enableDebug (cliOptions this)),
    (multiNode (cliOptions this)).
Qed.

(** X12. The three blocks are idempotent: applied to the document they
    have produced, they go through and give it back unchanged, for every
    combination of the flags; so a second run of the step on a file that
    loads as that document dumps the same document again. *)
Theorem mirror_blocks_are_idempotent
    (this : InitState) (application application' : JsValue) :
  mutated this application = Normal application' ->
  mutated this application' = Normal application'
  /\ forall w content text,
       files (fs w) !! applicationPath this = Some content ->
       yaml_load content = Some application' ->
       yaml_dump 256 application' = Some text ->
       writable (applicationPath this) = true ->
       exists w',
         configureMirrorNodeProperties this w = (Normal tt, w')
         /\ files (fs w') !! applicationPath this = Some text.
Proof.
  intros Hm.
  assert (Hagain : mutated this application' = Normal application').
  { rewrite mutated_assign_all in *. apply assign_all_settled.
    apply (assign_all_settles _ application); [apply assignments_independent | exact Hm]. }
  split; [exact Hagain |]. intros w content text Hf Hl Hd Hw.
  rewrite configureMirrorNodeProperties_eq. cbn zeta. rewrite Hf, Hl, Hagain, Hd, Hw.
  eexists. split; [reflexivity |].
  unfold relayed. destruct (multiNode (cliOptions this)); cbn; apply lookup_insert_eq.
Qed.

(** **** The life of a state *)

(** X13. A state as the constructor makes it has no observer, and
    [onStart] on it never returns: every run throws, the failing readiness
    test included, and delivers nothing; once [subscribe] has been called,
    with the options unchanged, a run that throws is the only one without
    an event. *)
Theorem fresh_state_never_returns_from_onStart
    (argv : CLIOptions) (w0 : World) (e : gmap string string) (f : FileSystem) :
  exists this w1,
    constructor argv w0 = (Normal this, w1)
    /\ cliOptions this = argv
    /\ cliOptions (subscribe this) = argv
    /\ env w1 = env w0 /\ fs w1 = fs w0 /\ events w1 = events w0
    /\ (forall out w', onStart this (initial e f) = (out, w') ->
                       exists err, out = Throw err /\ events w' = [])
    /\ (forall out w', onStart (subscribe this) (initial e f) = (out, w') ->
                       out = Normal tt /\ length (events w') = 1%nat
                       \/ exists err, out = Throw err /\ events w' = []).
Proof.
  exists (mkInitState argv false). eexists. split; [reflexivity |].
  repeat (split; [reflexivity |]). split.
  - intros out w' Hrun. rewrite onStart_eq in Hrun.
    destruct (entry_for _) as [configurationData|];
      [| injection Hrun as <- <-; by eexists].
    destruct (ready _).
    + destruct (materialize_delivers _ _ _ _ _ Hrun) as [(_ & Ho & _) | (err & -> & ->)];
        [discriminate Ho | by exists err].
    + destruct (delivers_update _ _ _ _ _ Hrun) as [(_ & Ho & _) | (err & -> & ->)];
        [discriminate Ho | by exists err].
  - intros out w' Hrun. rewrite onStart_eq in Hrun.
    destruct (entry_for _) as [configurationData|];
      [| injection Hrun as <- <-; right; by eexists].
    destruct (ready _).
    + destruct (materialize_delivers _ _ _ _ _ Hrun) as [(-> & _ & ->) | (err & -> & ->)];
        [by left | right; by exists err].
    + destruct (delivers_update _ _ _ _ _ Hrun) as [(-> & _ & ->) | (err & -> & ->)];
        [by left | right; by exists err].
Qed.

(** **** The environment of a finished run, key by key *)

Lemma last_value_app (k : string) (l1 l2 : list Configuration) :
  last_value k (l1 ++ l2) = match last_value k l2 with
                            | Some x => Some x
                            | None => last_value k l1
                            end.
Proof.
  induction l1 as [|variable l1 IH]; cbn [app last_value].
  - by destruct (last_value k l2).
  - rewrite IH. by destruct (last_value k l2).
Qed.

Lemma last_value_none (k : string) (l : list Configuration) :
  k ∉ key <$> l -> last_value k l = None.
Proof.
  induction l as [|variable l IH]; [done |]. cbn [fmap list_fmap last_value].
  rewrite not_elem_of_cons. intros [Hne Hk]. rewrite IH by done.
  by rewrite decide_False.
Qed.

(** X14. For a catalog entry whose variables [process.env] keeps as they
    are given: at the end of a run that has delivered Finish,
    RELAY_HEDERA_NETWORK is, in multi-node mode, the fixed map of the four
    endpoints to the four accounts, whatever the catalog gives it; and a
    name that none of the three overrides names (the working-directory
    entries, the rate limits forced when limits are off, the relay map in
    multi-node mode) has the value of the last catalog entry that names
    it, the environment list coming after the image tags, or the value it
    had before the run when no entry names it. *)
Theorem finished_run_environment_by_key
    (this : InitState) (configurationData : NetworkConfiguration)
    (e : gmap string string) (f : FileSystem) (out : Completion unit) (w' : World) :
  prop_get (network (cliOptions this)) networks = Some configurationData ->
  Forall portable (imageTagConfiguration configurationData
                   ++ default [] (envConfiguration configurationData)) ->
  onStart this (initial e f) = (out, w') ->
  Finish ∈ events w' ->
  (multiNode (cliOptions this) = true ->
   env w' !! "RELAY_HEDERA_NETWORK"
   = Some ("{" +:+ DQ +:+ "network-node:50211" +:+ DQ +:+ ":" +:+ DQ +:+ "0.0.3" +:+ DQ
         +:+ "," +:+ DQ +:+ "network-node-1:50211" +:+ DQ +:+ ":" +:+ DQ +:+ "0.0.4" +:+ DQ
         +:+ "," +:+ DQ +:+ "network-node-2:50211" +:+ DQ +:+ ":" +:+ DQ +:+ "0.0.5" +:+ DQ
         +:+ "," +:+ DQ +:+ "network-node-3:50211" +:+ DQ +:+ ":" +:+ DQ +:+ "0.0.6" +:+ DQ
         +:+ "}"))
  /\ forall k,
       properName k ->
       k ∉ key <$> workDirConfiguration this ->
       limits (cliOptions this) = true \/ k ∉ rateLimitKeys ->
       multiNode (cliOptions this) = false \/ k <> "RELAY_HEDERA_NETWORK" ->
       env w' !! k =
       match last_value k (imageTagConfiguration configurationData
                           ++ default [] (envConfiguration configurationData)) with
       | Some x => Some x
       | None => e !! k
       end.
Proof.
  intros Hcat _ Hrun Hfin.
  destruct (onStart_finish_env _ _ _ _ _ Hrun Hfin) as (configurationData' & Hcat' & ->).
  rewrite (entry_for_known _ _ Hcat) in Hcat'. injection Hcat' as <-. unfold relayedEnv. split.
  - intros ->. apply lookup_insert_eq.
  - intros k _ Hwd Hrate Hrelay.
    assert (Hk : configured this configurationData e !! k =
                 match last_value k (imageTagConfiguration configurationData
                                     ++ default [] (envConfiguration configurationData)) with
                 | Some x => Some x
                 | None => e !! k
                 end).
    { unfold configured. rewrite rateLimited_lookup by done.
      rewrite <- exported_app, exported_lookup, app_assoc, last_value_app.
      by rewrite (last_value_none k (workDirConfiguration this)). }
    destruct (multiNode (cliOptions this)); [| exact Hk].
    destruct Hrelay as [Hrelay | Hrelay]; [discriminate Hrelay |].
    by rewrite lookup_insert_ne.
Qed.

End Further.

(** ** The further properties on the instances *)

Section FurtherWitnesses.
Import Example Faults.

(** The run on the local entry delivers one event or none. *)
Lemma one_event_witness :
  let r := run machine (options "local" true false false false) in
  events r.2 = [Finish] \/ events r.2 = [UnresolvableError] \/ events r.2 = [].
Proof.
  intros r.
  destruct (onStart_returns_with_one_event_or_throws_with_none
              (P := platform) (H := machine)
              (originalNodeConfiguration := template) (catalog := catalog)
              (state (options "local" true false false false)) ∅ disk r.1 r.2)
    as [(_ & _ & [[_ Hev] | [_ Hev]]) | (err & _ & Hev)].
  - apply surjective_pairing.
  - by left.
  - right. by left.
  - right. by right.
Defined.

(** The same run on a state nobody has subscribed to. *)
Lemma unsubscribed_run_witness :
  exists w',
    @onStart platform machine template catalog
      (unsubscribed (options "local" true false false false)) (initial ∅ disk)
    = (Throw (TypeError "update"), w')
    /\ events w' = [].
Proof.
  destruct (onStart_without_subscriber_prepares_then_throws (P := platform) (H := machine)
              (originalNodeConfiguration := template) (catalog := catalog)
              (unsubscribed (options "local" true false false false)) localNetwork ∅ disk
              (@createEphemeralDirectories platform "/work" disk).2
              (@copyPaths platform
                    (@configFiles platform
                       (unsubscribed (options "local" true false false false)))
                    (@createEphemeralDirectories platform "/work" disk).2).2
              (render shipped) (render shipped) shipped shipped)
    as (w' & Hrun & Hev & _).
  - reflexivity.
  - reflexivity.
  - reflexivity.
  - exact ready_machine_has_no_necessary_port_taken.
  - reflexivity.
  - vm_compute. reflexivity.
  - intros _. reflexivity.
  - vm_compute. reflexivity.
  - vm_compute. reflexivity.
  - reflexivity.
  - reflexivity.
  - reflexivity.
  - exists w'. by split.
Defined.

(** A platform that cannot create the directories, and a source tree
    without the record parser: the copy fails at its third pair and the
    two pairs copied before it stay in the working directory. *)
Lemma preparation_failure_witness :
  (exists w',
     @onStart sealed machine template catalog
       (state (options "local" true false false false)) (initial ∅ disk)
     = (Throw (FileSystemError "/work"), w')
     /\ env w' = ∅ /\ fs w' = disk /\ events w' = [])
  /\ (exists w',
        @onStart platform machine template catalog
          (state (options "local" true false false false)) (initial ∅ incomplete)
        = (Throw (FileSystemError "/app/src/services/record-parser"), w')
        /\ env w' = ∅ /\ events w' = []
        /\ files (fs w') !! "/work/compose-network/mirror-node/application.yml"
           = Some (render shipped)).
Proof.
  split.
  - destruct (proj1 (preparation_failure_leaves_the_environment
                       (P := sealed) (H := machine)
                       (originalNodeConfiguration := template) (catalog := catalog)
                       (state (options "local" true false false false)) localNetwork ∅ disk
                       (FileSystemError "/work")
                       eq_refl eq_refl ready_machine_has_no_necessary_port_taken)
                disk eq_refl)
      as (w' & Hrun & He & Hf & Hev & _).
    by exists w'.
  - destruct (proj2 (preparation_failure_leaves_the_environment
                       (P := platform) (H := machine)
                       (originalNodeConfiguration := template) (catalog := catalog)
                       (state (options "local" true false false false)) localNetwork
                       ∅ incomplete (FileSystemError "/app/src/services/record-parser")
                       eq_refl eq_refl ready_machine_has_no_necessary_port_taken)
                (@createEphemeralDirectories platform "/work" incomplete).2
                (@copyPaths platform
                   (@configFiles platform (state (options "local" true false false false)))
                   (@createEphemeralDirectories platform "/work" incomplete).2).2)
      as (w' & Hrun & He & Hf & Hev).
    + reflexivity.
    + vm_compute. reflexivity.
    + exists w'. split; [exact Hrun |]. split; [exact He |]. split; [exact Hev |].
      rewrite Hf. vm_compute. reflexivity.
Defined.

(** The run on the machine whose properties file is read-only. *)
Lemma bootstrap_write_failure_witness :
  exists w',
    @onStart platform readOnly template catalog
      (state (options "local" true false false false)) (initial ∅ disk)
    = (Throw (FileSystemError
                "/work/compose-network/network-node/data/config/bootstrap.properties"), w')
    /\ events w' = []
    /\ env w' !! "NETWORK_NODE_IMAGE_TAG" = Some "0.49.0".
Proof.
  destruct (bootstrap_write_failure_is_not_rolled_back (P := platform) (H := readOnly)
              (originalNodeConfiguration := template) (catalog := catalog)
              (state (options "local" true false false false)) localNetwork
              (mkNodeConfiguration [mkConfiguration "contracts.chainId" "296"]) ∅ disk
              (@createEphemeralDirectories platform "/work" disk).2
              (@copyPaths platform
                    (@configFiles platform (state (options "local" true false false false)))
                    (@createEphemeralDirectories platform "/work" disk).2).2)
    as (w' & Hrun & Hev & _ & He & _).
  - reflexivity.
  - reflexivity.
  - exact ready_machine_has_no_necessary_port_taken.
  - reflexivity.
  - vm_compute. reflexivity.
  - reflexivity.
  - reflexivity.
  - exists w'. split; [exact Hrun |]. split; [exact Hev |].
    rewrite He. vm_compute. reflexivity.
Defined.

(** The export of the local entry with limits on: the image tag is the
    catalog's, a name no entry names is not there. *)
Lemma export_witness :
  exists w',
    @configureEnvVariables (state (options "local" true false false true))
      (imageTagConfiguration localNetwork) (envConfiguration localNetwork) (initial ∅ disk)
    = (Normal tt, w')
    /\ env w' !! "NETWORK_NODE_IMAGE_TAG" = Some "0.49.0"
    /\ env w' !! "RELAY_RATE_LIMIT_DISABLED" = Some "false"
    /\ env w' !! "HOME" = None.
Proof.
  destruct (export_is_last_writer_wins
              (state (options "local" true false false true))
              (imageTagConfiguration localNetwork) (envConfiguration localNetwork)
              (initial ∅ disk))
    as (w' & Hrun & Hk).
  - repeat (constructor; [vm_compute; done |]). constructor.
  - exists w'. split; [exact Hrun |].
    split; [| split].
    + apply (Hk "NETWORK_NODE_IMAGE_TAG"); [split; [discriminate | split; reflexivity] | by left].
    + apply (Hk "RELAY_RATE_LIMIT_DISABLED"); [split; [discriminate | split; reflexivity] | by left].
    + apply (Hk "HOME"); [split; [discriminate | split; reflexivity] | by left].
Defined.

(** The bootstrap step twice over the prepared directory. *)
Lemma bootstrap_regeneration_witness :
  exists w1 w2,
    @configureNodeProperties platform machine template
      (state (options "local" true false false false))
      (Some [mkConfiguration "contracts.chainId" "296"]) (initial ∅ prepared)
    = (Normal tt, w1)
    /\ @configureNodeProperties platform machine template
         (state (options "local" true false false false))
         (Some [mkConfiguration "contracts.chainId" "296"]) w1
       = (Normal tt, w2)
    /\ fs w2 = fs w1.
Proof.
  destruct (proj1 (bootstrap_regeneration_is_idempotent (P := platform) (H := machine)
                     (originalNodeConfiguration := template)
                     (state (options "local" true false false false))
                     [mkConfiguration "contracts.chainId" "296"] (initial ∅ prepared))
              eq_refl)
    as (w1 & w2 & Hrun1 & Hrun2 & Hfs & _).
  by exists w1, w2.
Defined.

(** Two lists of properties with the text of the template. *)
Lemma property_text_witness :
  [mkConfiguration "ledger.id" "0x03"; mkConfiguration "contracts.chainId" "298"]
  = @bootsrapProperties template.
Proof.
  apply property_text_determines_the_properties.
  - repeat (constructor; [vm_compute; done |]). constructor.
  - repeat (constructor; [vm_compute; done |]). constructor.
  - reflexivity.
Defined.

(** The mirror-node step where the application document has not been
    copied. *)
Lemma mirror_step_failure_witness :
  let r := @configureMirrorNodeProperties platform machine template
             (state (options "local" false true true false)) (initial ∅ disk) in
  fs r.2 = disk /\ events r.2 = [].
Proof.
  intros r.
  destruct (mirror_step_failure_leaves_the_file_tree (P := platform) (H := machine)
              (originalNodeConfiguration := template)
              (state (options "local" false true true false)) (initial ∅ disk)
              (FileSystemError "/work/compose-network/mirror-node/application.yml") r.2)
    as (Hfs & Hev & _).
  - vm_compute. reflexivity.
  - by split.
Defined.

(** Multi-node mode on the document that has no monitor section. *)
Lemma missing_monitor_witness :
  exists k w',
    @configureMirrorNodeProperties reader machine template
      (state (options "local" true true false true)) (initial ∅ trimmed)
    = (Throw (TypeError k), w')
    /\ env w' = ∅ /\ fs w' = trimmed /\ events w' = [].
Proof.
  apply (missing_monitor_section_is_a_TypeError (P := reader) (H := machine)
           (originalNodeConfiguration := template)
           (state (options "local" true true false true)) (initial ∅ trimmed)
           (render headless) headless).
  - vm_compute. reflexivity.
  - vm_compute. reflexivity.
  - reflexivity.
  - intros h Hh. vm_compute in Hh. by injection Hh as <-.
Defined.

(** The three blocks on the shipped document, and again on the result. *)
Lemma mirror_blocks_idempotent_witness :
  exists application',
    @mutated template (state (options "local" false true true false)) shipped
    = Normal application'
    /\ @mutated template (state (options "local" false true true false)) application'
       = Normal application'.
Proof.
  eexists. split; [vm_compute; reflexivity |].
  apply (mirror_blocks_are_idempotent (P := platform) (H := machine)
           (originalNodeConfiguration := template)
           (state (options "local" false true true false)) shipped).
  vm_compute. reflexivity.
Defined.

(** A state from the constructor, run before anybody subscribes. *)
Lemma fresh_state_witness :
  exists this w1 err,
    constructor (options "local" true false false false) (initial ∅ disk) = (Normal this, w1)
    /\ (@onStart platform machine template catalog this (initial ∅ disk)).1 = Throw err.
Proof.
  destruct (fresh_state_never_returns_from_onStart (P := platform) (H := machine)
              (originalNodeConfiguration := template) (catalog := catalog)
              (options "local" true false false false) (initial ∅ disk) ∅ disk)
    as (this & w1 & Hc & _ & _ & _ & _ & _ & Hfresh & _).
  destruct (Hfresh _ _ (surjective_pairing _)) as (err & Hout & _).
  by exists this, w1, err.
Defined.

(** The finished multi-node run on the local entry. *)
Lemma finished_environment_witness :
  let r := run machine (options "local" true true false true) in
  env r.2 !! "RELAY_HEDERA_NETWORK" = Some RELAY_HEDERA_NETWORK_VALUE
  /\ env r.2 !! "NETWORK_NODE_IMAGE_TAG" = Some "0.49.0"
  /\ env r.2 !! "RELAY_RATE_LIMIT_DISABLED" = Some "false".
Proof.
  intros r.
  destruct (finished_run_environment_by_key (P := platform) (H := machine)
              (originalNodeConfiguration := template) (catalog := catalog)
              (state (options "local" true true false true)) localNetwork ∅ disk r.1 r.2)
    as [Hrelay Hk].
  - reflexivity.
  - repeat (constructor; [vm_compute; done |]). constructor.
  - apply surjective_pairing.
  - vm_compute. repeat constructor.
  - split; [exact (Hrelay eq_refl) |].
    split.
    + apply (Hk "NETWORK_NODE_IMAGE_TAG").
      * split; [discriminate | split; reflexivity].
      * apply (bool_decide_unpack _). vm_compute. exact I.
      * by left.
      * by right.
    + apply (Hk "RELAY_RATE_LIMIT_DISABLED").
      * split; [discriminate | split; reflexivity].
      * apply (bool_decide_unpack _). vm_compute. exact I.
      * by left.
      * by right.
Defined.
End FurtherWitnesses.
